(** * Kode / GCloudTool: the command execution layer

    A shallow embedding of [src/tools/GCloudTool/GCloudApiClient.ts]
    (with the parts of [types.ts] and [operations.ts] it relies on) and
    the properties of the execution layer checked against it.

    Conventions of the embedding.
    - JavaScript strings are [string]s over ASCII; [toLowerCase] and the
      regular-expression class [\s] are restricted to ASCII accordingly.
    - JavaScript numbers that the code only uses as integers (exit codes,
      process ids, milliseconds) are [Z]; [undefined] and [null] are
      [None].
    - The Node event loop is a list of events delivered in order to the
      handlers that [runCommand] registers; the handlers mutate one shared
      [CommandExecution] object, which is threaded through as state.
    - [new Date()], [crypto.randomUUID()], [existsSync], the configuration
      file and the behaviour of child processes are inputs, gathered in a
      [World]. *)

From Stdlib Require Import ZArith String Ascii List Bool Lia.
From stdpp Require Import base option list gmap strings pretty.

Import ListNotations.
Local Open Scope string_scope.
Local Open Scope list_scope.
Local Open Scope Z_scope.

(** ** JavaScript string primitives used by the client *)

Module Js.

(** The double quote character, for messages that quote a command. *)
Definition dq : string := String (ascii_of_nat 34) EmptyString.

(** [\s] on ASCII: TAB, LF, VT, FF, CR and SPACE. *)
Definition is_space (c : ascii) : bool :=
  let n := nat_of_ascii c in
  ((9 <=? n)%nat && (n <=? 13)%nat) || (n =? 32)%nat.

Definition toLowerChar (c : ascii) : ascii :=
  let n := nat_of_ascii c in
  if ((65 <=? n)%nat && (n <=? 90)%nat)%bool then ascii_of_nat (n + 32) else c.

(** [s.toLowerCase()] *)
Fixpoint toLowerCase (s : string) : string :=
  match s with
  | EmptyString => EmptyString
  | String c s' => String (toLowerChar c) (toLowerCase s')
  end.

(** [s.startsWith(p)] *)
Definition startsWith (s p : string) : bool := String.prefix p s.

(** [s.includes(p)] *)
Fixpoint includes (s p : string) : bool :=
  String.prefix p s ||
  match s with
  | EmptyString => false
  | String _ s' => includes s' p
  end.

(** [l.join(sep)] *)
Fixpoint join (sep : string) (l : list string) : string :=
  match l with
  | [] => ""
  | [x] => x
  | x :: rest => x +:+ sep +:+ join sep rest
  end.

(** Drops the longest prefix of white space. *)
Fixpoint dropSpaces (s : string) : string :=
  match s with
  | String c s' => if is_space c then dropSpaces s' else s
  | EmptyString => EmptyString
  end.

(** [s.replace(/^gcloud\s+/, '')]: the word and the (greedy, non-empty)
    run of white space after it are removed when present at the start;
    otherwise the string is unchanged. *)
Definition stripGcloud (s : string) : string :=
  match s with
  | String "g" (String "c" (String "l" (String "o" (String "u"
      (String "d" (String c rest)))))) =>
      if is_space c then dropSpaces rest else s
  | _ => s
  end.

(** [s.split(/\s+/)]: [cur] is the piece being read (reversed), [inSep]
    tells that the previous character belonged to a separator.  A
    separator at the start or at the end yields an empty first or last
    piece, and the empty string yields one empty piece, as in
    JavaScript. *)
Fixpoint splitSpacesFrom (inSep : bool) (cur : list ascii) (s : string)
  : list string :=
  match s with
  | EmptyString => [string_of_list_ascii (rev cur)]
  | String c s' =>
      if is_space c then
        if inSep then splitSpacesFrom true [] s'
        else string_of_list_ascii (rev cur) :: splitSpacesFrom true [] s'
      else splitSpacesFrom false (c :: cur) s'
  end.

Definition splitSpaces (s : string) : list string :=
  splitSpacesFrom false [] s.

(** [s.split(/\r?\n/)]: a line feed, with the carriage return just
    before it when there is one, separates two pieces; a carriage
    return alone is ordinary text. *)
Fixpoint splitLinesFrom (cur : list ascii) (s : string) : list string :=
  match s with
  | EmptyString => [string_of_list_ascii (rev cur)]
  | String c s' =>
      if Ascii.eqb c "010" then
        string_of_list_ascii (rev cur) :: splitLinesFrom [] s'
      else if Ascii.eqb c "013" then
        match s' with
        | String c' s'' =>
            if Ascii.eqb c' "010" then
              string_of_list_ascii (rev cur) :: splitLinesFrom [] s''
            else splitLinesFrom (c :: cur) s'
        | EmptyString => splitLinesFrom (c :: cur) s'
        end
      else splitLinesFrom (c :: cur) s'
  end.

Definition splitLines (s : string) : list string := splitLinesFrom [] s.

(** [Boolean(s)] for a string: the empty string is falsy. *)
Definition truthy (s : string) : bool :=
  match s with EmptyString => false | _ => true end.

End Js.


(** ** Data model ([types.ts]) *)

Inductive ExecutionStatus :=
| Pending | Running | Completed | Failed | Cancelled.

#[global] Instance ExecutionStatus_eq_dec : EqDecision ExecutionStatus.
Proof. solve_decision. Defined.

(** The three states in which a run has ended. *)
Definition is_terminal (s : ExecutionStatus) : bool :=
  match s with
  | Completed | Failed | Cancelled => true
  | Pending | Running => false
  end.

Record GCloudCommand := {
  command : string;
  args : list string;
  workingDirectory : option string;
  environment : option (gmap string string);
  timeout : option Z;
  requiresInteraction : bool;
  supportsJson : bool
}.

(** The field [command] of the source is [cmd] here, the name [command]
    being taken by the field of [GCloudCommand]. *)
Record CommandExecution := {
  id : string;
  cmd : GCloudCommand;
  status : ExecutionStatus;
  startTime : Z;
  endTime : option Z;
  exitCode : option Z;
  stdout : list string;
  stderr : list string;
  cancelled : bool;
  pid : option Z
}.

(** [class GCloudError extends Error]; [exitCode] is the [code] handed
    to the constructor, which is [null] for a child ended by a signal. *)
Record GCloudError := {
  message : string;
  errExitCode : option Z;
  errStderr : option (list string);
  authenticationRequired : option bool;
  suggestions : option (list string)
}.

Definition plainError (msg : string) : GCloudError :=
  {| message := msg; errExitCode := None; errStderr := None;
     authenticationRequired := None; suggestions := None |}.

(** The [gcloud] section of the global configuration. *)
Record GCloudConfig := {
  preferJsonOutput : bool;
  defaultTimeout : option Z
}.

(** Field updates of the shared execution object. *)
Definition set_status (s : ExecutionStatus) (e : CommandExecution) :=
  {| id := id e; cmd := cmd e; status := s; startTime := startTime e;
     endTime := endTime e; exitCode := exitCode e; stdout := stdout e;
     stderr := stderr e; cancelled := cancelled e; pid := pid e |}.

Definition set_endTime (t : Z) (e : CommandExecution) :=
  {| id := id e; cmd := cmd e; status := status e; startTime := startTime e;
     endTime := Some t; exitCode := exitCode e; stdout := stdout e;
     stderr := stderr e; cancelled := cancelled e; pid := pid e |}.

Definition set_exitCode (c : Z) (e : CommandExecution) :=
  {| id := id e; cmd := cmd e; status := status e; startTime := startTime e;
     endTime := endTime e; exitCode := Some c; stdout := stdout e;
     stderr := stderr e; cancelled := cancelled e; pid := pid e |}.

Definition set_pid (p : option Z) (e : CommandExecution) :=
  {| id := id e; cmd := cmd e; status := status e; startTime := startTime e;
     endTime := endTime e; exitCode := exitCode e; stdout := stdout e;
     stderr := stderr e; cancelled := cancelled e; pid := p |}.

Definition set_cancelled (b : bool) (e : CommandExecution) :=
  {| id := id e; cmd := cmd e; status := status e; startTime := startTime e;
     endTime := endTime e; exitCode := exitCode e; stdout := stdout e;
     stderr := stderr e; cancelled := b; pid := pid e |}.

Definition push_stdout (lines : list string) (e : CommandExecution) :=
  {| id := id e; cmd := cmd e; status := status e; startTime := startTime e;
     endTime := endTime e; exitCode := exitCode e;
     stdout := stdout e ++ lines;
     stderr := stderr e; cancelled := cancelled e; pid := pid e |}.

Definition push_stderr (lines : list string) (e : CommandExecution) :=
  {| id := id e; cmd := cmd e; status := status e; startTime := startTime e;
     endTime := endTime e; exitCode := exitCode e; stdout := stdout e;
     stderr := stderr e ++ lines;
     cancelled := cancelled e; pid := pid e |}.

(** ** The world around one call *)

(** A request handed to [child_process.spawn]. *)
Record SpawnRequest := {
  spFile : string;
  spArgs : list string;
  spCwd : option string;
  spEnv : option (gmap string string);
  spShell : bool
}.

(** What Node runs for a request (Node's [child_process], not code of
    this repository): with the [shell] option the file and the arguments
    are joined by spaces into one command string, which [/bin/sh -c]
    interprets; without it the file is executed with the argument list
    as it is. *)
Definition spawnedArgv (r : SpawnRequest) : list string :=
  if spShell r then ["/bin/sh"; "-c"; Js.join " " (spFile r :: spArgs r)]
  else spFile r :: spArgs r.

(** The request goes through a shell-interpreted command string. *)
Definition shellInterpreted (r : SpawnRequest) : Prop := spShell r = true.

(** How the [gcloud version] child of [isGCloudAvailable] ends. *)
Inductive VersionProbe :=
| ProbeThrows
| ProbeErrorEvent
| ProbeExit (code : option Z).

(** What [spawn] does for the command itself. *)
Inductive SpawnResult :=
| SpawnThrows (msg : string) (now : Z)
| Spawned (childPid : option Z).

(** The events Node delivers for the spawned child and its timer, with
    the clock reading where the handler calls [new Date()]. *)
Inductive ChildEvent :=
| StdoutData (chunk : string)
| StderrData (chunk : string)
| TimerFires
| Close (code : option Z) (now : Z)
| ProcessError (msg : string) (now : Z).

(** Everything one call of [executeCommand] reads from outside:
    [clock] is the reading of [new Date()] when the execution object is
    created, [events] the events of the child and of the timer in the
    order in which the event loop delivers them. *)
Record World := {
  versionProbe : VersionProbe;
  existsSync : string -> bool;
  config : GCloudConfig;
  processEnv : gmap string string;
  randomUUID : string;
  clock : Z;
  spawnResult : SpawnResult;
  events : list ChildEvent
}.

(** Observable effects, in program order. *)
Inductive Effect :=
| EffSpawn (r : SpawnRequest)
| EffExistsSync (path : string)
| EffKill (target : Z)
| EffLog (msg : string).

(** The result of awaiting an [async] call. *)
Inductive Awaited (A : Type) :=
| Returns (a : A)
| Throws (e : GCloudError)
| NeverSettles.
Arguments Returns {A} a.
Arguments Throws {A} e.
Arguments NeverSettles {A}.

(** State of the promise created by [runCommand].  The promise is
    fulfilled with the shared execution object; [Fulfilled] records the
    object as the awaiting caller finds it when its continuation runs,
    that is right after the settling handler returns. *)
Inductive Settlement :=
| Unsettled
| Fulfilled (seen : CommandExecution)
| Rejected (err : GCloudError).

(** ** The client ([GCloudApiClient.ts]) *)

Module GCloudApiClient.

Definition DEFAULT_TIMEOUT : Z := 300000.

(** [a || b] on an optional number: [undefined] and [0] are falsy. *)
Definition orNumber (a : option Z) (b : Z) : Z :=
  match a with
  | Some x => if x =? 0 then b else x
  | None => b
  end.

(** *** [isGCloudAvailable] *)

Definition versionRequest : SpawnRequest :=
  {| spFile := "gcloud"; spArgs := ["version"]; spCwd := None;
     spEnv := None; spShell := true |}.

Definition isGCloudAvailable (p : VersionProbe) : bool :=
  match p with
  | ProbeThrows => false
  | ProbeErrorEvent => false
  | ProbeExit (Some 0) => true
  | ProbeExit _ => false
  end.

(** *** [checkForAuthError] *)

Definition authErrorPatterns : list string :=
  [ "not authorized";
    "not authenticated";
    "authentication required";
    "please run";
    "gcloud auth login";
    "credentials not found";
    "no credentials" ].

Definition checkForAuthError (stderr : list string) : bool :=
  existsb
    (fun line =>
       existsb (fun pattern => Js.includes (Js.toLowerCase line) pattern)
               authErrorPatterns)
    stderr.

Definition loginSuggestions : list string :=
  [ "Run " +:+ Js.dq +:+ "gcloud auth login" +:+ Js.dq +:+ " to authenticate";
    "Run " +:+ Js.dq +:+ "gcloud auth application-default login" +:+ Js.dq
      +:+ " for application default credentials" ].

Definition authenticationError (code : option Z) (stderr : list string)
  : GCloudError :=
  {| message := "Authentication required";
     errExitCode := code;
     errStderr := Some stderr;
     authenticationRequired := Some true;
     suggestions := Some loginSuggestions |}.

(** *** [runCommand]: the argument list *)

Definition hasFormatFlag (l : list string) : bool :=
  existsb (fun arg => Js.startsWith arg "--format=") l.

(** The condition under which the JSON format is applied:
    [supportsJson && (config.preferJsonOutput ||
     command.args.includes('--format=json'))]. *)
Definition jsonRequested (cfg : GCloudConfig) (c : GCloudCommand) : bool :=
  supportsJson c &&
  (preferJsonOutput cfg || existsb (String.eqb "--format=json") (args c)).

(** The guarded [args.push('--format=json')]. *)
Definition applyJsonFormat (requested : bool) (l : list string)
  : list string :=
  if requested then
    if negb (hasFormatFlag l) then l ++ ["--format=json"] else l
  else l.

(** [command.replace(/^gcloud\s+/, '').split(/\s+/)] *)
Definition parseArgs (c : GCloudCommand) : list string :=
  Js.splitSpaces (Js.stripGcloud (command c)).

(** The list handed to [spawn]. *)
Definition spawnArgs (cfg : GCloudConfig) (c : GCloudCommand) : list string :=
  applyJsonFormat (jsonRequested cfg c) (parseArgs c).

(** [{...process.env, ...command.environment}]: the later spread wins. *)
Definition spawnEnv (w : World) (c : GCloudCommand) : gmap string string :=
  match environment c with
  | Some e => e ∪ processEnv w
  | None => processEnv w
  end.

Definition commandRequest (w : World) (c : GCloudCommand) : SpawnRequest :=
  {| spFile := "gcloud";
     spArgs := spawnArgs (config w) c;
     spCwd := workingDirectory c;
     spEnv := Some (spawnEnv w c);
     spShell := true |}.

Definition effectiveTimeout (cfg : GCloudConfig) (c : GCloudCommand) : Z :=
  orNumber (timeout c) (orNumber (defaultTimeout cfg) DEFAULT_TIMEOUT).

(** *** [runCommand]: the handlers *)

Record RunState := {
  execution : CommandExecution;   (* the shared object *)
  promise : Settlement;
  timerArmed : bool;              (* set by setTimeout, reset by clearTimeout *)
  stdoutLineNumber : nat;
  stderrLineNumber : nat;
  effects : list Effect
}.

(** [resolve] and [reject] act on an unsettled promise only. *)
Definition settle (new old : Settlement) : Settlement :=
  match old with
  | Unsettled => new
  | _ => old
  end.

(** [killProcess(childProcess)]: a signal is sent when the child has a
    (truthy) pid. *)
Definition killProcess (childPid : option Z) : list Effect :=
  match childPid with
  | Some p => if p =? 0 then [] else [EffKill p]
  | None => []
  end.

Definition timeoutError (ms : Z) : GCloudError :=
  plainError ("Command timed out after " +:+ pretty ms +:+ "ms").

(** The [setTimeout] callback. *)
Definition onTimeout (ms : Z) (rs : RunState) : RunState :=
  {| execution := set_status Failed (execution rs);
     promise := settle (Rejected (timeoutError ms)) (promise rs);
     timerArmed := false;
     stdoutLineNumber := stdoutLineNumber rs;
     stderrLineNumber := stderrLineNumber rs;
     effects := effects rs ++ killProcess (pid (execution rs)) |}.

(** [code || 0] *)
Definition codeOrZero (code : option Z) : Z := orNumber code 0.

(** The ['close'] handler. *)
Definition onClose (code : option Z) (now : Z) (rs : RunState) : RunState :=
  let e1 := set_exitCode (codeOrZero code) (set_endTime now (execution rs)) in
  let withExec e p :=
    {| execution := e; promise := p; timerArmed := false;
       stdoutLineNumber := stdoutLineNumber rs;
       stderrLineNumber := stderrLineNumber rs;
       effects := effects rs |} in
  if cancelled e1 then
    let e2 := set_status Cancelled e1 in
    withExec e2 (settle (Fulfilled e2) (promise rs))
  else
    match code with
    | Some 0 =>
        let e2 := set_status Completed e1 in
        withExec e2 (settle (Fulfilled e2) (promise rs))
    | _ =>
        let e2 := set_status Failed e1 in
        if checkForAuthError (stderr e2) then
          withExec e2
            (settle (Rejected (authenticationError code (stderr e2)))
                    (promise rs))
        else withExec e2 (settle (Fulfilled e2) (promise rs))
    end.

(** The ['error'] handler. *)
Definition onError (msg : string) (now : Z) (rs : RunState) : RunState :=
  {| execution := set_endTime now (set_status Failed (execution rs));
     promise := settle (Rejected (plainError ("Process error: " +:+ msg)))
                       (promise rs);
     timerArmed := false;
     stdoutLineNumber := stdoutLineNumber rs;
     stderrLineNumber := stderrLineNumber rs;
     effects := effects rs |}.

(** [data.toString().split(/\r?\n/).filter(Boolean)] *)
Definition chunkLines (chunk : string) : list string :=
  List.filter Js.truthy (Js.splitLines chunk).

(** The ['data'] listeners of [handleProcessOutput].  The [OutputLine]
    built for each line is dropped after its content is pushed, so only
    the counters and the pushed lines remain. *)
Definition onStdout (chunk : string) (rs : RunState) : RunState :=
  let lines := chunkLines chunk in
  {| execution := push_stdout lines (execution rs);
     promise := promise rs;
     timerArmed := timerArmed rs;
     stdoutLineNumber := (stdoutLineNumber rs + length lines)%nat;
     stderrLineNumber := stderrLineNumber rs;
     effects := effects rs |}.

Definition onStderr (chunk : string) (rs : RunState) : RunState :=
  let lines := chunkLines chunk in
  {| execution := push_stderr lines (execution rs);
     promise := promise rs;
     timerArmed := timerArmed rs;
     stdoutLineNumber := stdoutLineNumber rs;
     stderrLineNumber := (stderrLineNumber rs + length lines)%nat;
     effects := effects rs |}.

(** Delivery of one event.  A timer that was cleared, or that has
    already fired, does not fire. *)
Definition deliver (ms : Z) (rs : RunState) (ev : ChildEvent) : RunState :=
  match ev with
  | StdoutData chunk => onStdout chunk rs
  | StderrData chunk => onStderr chunk rs
  | TimerFires => if timerArmed rs then onTimeout ms rs else rs
  | Close code now => onClose code now rs
  | ProcessError msg now => onError msg now rs
  end.

Definition deliverAll (ms : Z) (rs : RunState) (evs : list ChildEvent)
  : RunState :=
  fold_left (deliver ms) evs rs.

(** State right after the synchronous part of the promise executor,
    for a child that was spawned. *)
Definition started (w : World) (e : CommandExecution) (childPid : option Z)
  : RunState :=
  {| execution := set_status Running (set_pid childPid e);
     promise := Unsettled;
     timerArmed := true;
     stdoutLineNumber := 0;
     stderrLineNumber := 0;
     effects := [EffSpawn (commandRequest w (cmd e))] |}.

(** [runCommand(execution)]: the state once every event of the world
    has been delivered. *)
Definition runCommand (w : World) (e : CommandExecution) : RunState :=
  match spawnResult w with
  | SpawnThrows msg now =>
      {| execution := set_endTime now (set_status Failed e);
         promise := Rejected (plainError ("Failed to start command: " +:+ msg));
         timerArmed := false;
         stdoutLineNumber := 0;
         stderrLineNumber := 0;
         effects := [EffSpawn (commandRequest w (cmd e))] |}
  | Spawned childPid =>
      deliverAll (effectiveTimeout (config w) (cmd e))
                 (started w e childPid) (events w)
  end.

(** *** [executeCommand] *)

Definition notGcloudError : GCloudError :=
  plainError ("Command must start with " +:+ Js.dq +:+ "gcloud" +:+ Js.dq).

Definition sdkNotFoundError : GCloudError :=
  {| message := "Google Cloud SDK not found. Please install it from https://cloud.google.com/sdk/docs/install";
     errExitCode := None;
     errStderr := None;
     authenticationRequired := Some false;
     suggestions := Some ["Install Google Cloud SDK"; "Add gcloud to your PATH"] |}.

Definition missingDirectoryError (d : string) : GCloudError :=
  plainError ("Working directory does not exist: " +:+ d).

(** [command.workingDirectory && !existsSync(command.workingDirectory)]
    with the calls of [existsSync] it makes. *)
Definition directoryMissing (w : World) (c : GCloudCommand)
  : option string * list Effect :=
  match workingDirectory c with
  | Some d =>
      if Js.truthy d then
        (if existsSync w d then None else Some d, [EffExistsSync d])
      else (None, [])
  | None => (None, [])
  end.

Definition newExecution (w : World) (c : GCloudCommand) : CommandExecution :=
  {| id := randomUUID w; cmd := c; status := Pending;
     startTime := clock w; endTime := None; exitCode := None;
     stdout := []; stderr := []; cancelled := false; pid := None |}.

Definition awaited (p : Settlement) : Awaited CommandExecution :=
  match p with
  | Fulfilled seen => Returns seen
  | Rejected err => Throws err
  | Unsettled => NeverSettles
  end.

(** [executeCommand(command)] with its effects.  Every rejection of
    [runCommand] is a [GCloudError], which the [catch] rethrows as it
    is. *)
Definition executeCommand (w : World) (c : GCloudCommand)
  : Awaited CommandExecution * list Effect :=
  if negb (Js.startsWith (command c) "gcloud ") then
    (Throws notGcloudError, [])
  else if negb (isGCloudAvailable (versionProbe w)) then
    (Throws sdkNotFoundError, [EffSpawn versionRequest])
  else
    match directoryMissing w c with
    | (Some d, effs) =>
        (Throws (missingDirectoryError d), EffSpawn versionRequest :: effs)
    | (None, effs) =>
        let rs := runCommand w (newExecution w c) in
        (awaited (promise rs), EffSpawn versionRequest :: effs ++ effects rs)
    end.

(** *** [cancelExecution] *)

(** [kill] tells what [process.kill(pid, 'SIGTERM')] does: [None] when
    the signal is sent, the error message when it throws. *)
Definition cancelExecution (kill : Z -> option string) (now : Z)
    (e : CommandExecution) : bool * CommandExecution * list Effect :=
  match pid e with
  | Some p =>
      if negb (bool_decide (status e = Running)) || (p =? 0) then
        (false, e, [])
      else
        match kill p with
        | None =>
            (true,
             set_endTime now (set_status Cancelled (set_cancelled true e)),
             [EffKill p])
        | Some msg =>
            (false, e, [EffLog ("Failed to cancel execution: " +:+ msg)])
        end
  | None => (false, e, [])
  end.

End GCloudApiClient.

(** ** The authentication probe ([getAuthenticationStatus]) *)

(** Values produced by [JSON.parse]. *)
#[local] Unset Elimination Schemes.
Inductive Json :=
| JNull
| JBool (b : bool)
| JNumber (n : Z)
| JString (s : string)
| JArray (items : list Json)
| JObject (fields : list (string * Json)).
#[local] Set Elimination Schemes.

(** The snapshot.  The fields hold whatever the parsed output holds, so
    an account or a project is a JSON value, or [None] for [undefined]. *)
Record AuthenticationStatus := {
  isAuthenticated : bool;
  activeAccount : option Json;
  availableAccounts : list (option Json);
  defaultProject : option Json;
  lastChecked : Z
}.

Module AuthProbe.
Import GCloudApiClient.

(** The snapshot returned on the three degraded paths. *)
Definition notAuthenticated (now : Z) : AuthenticationStatus :=
  {| isAuthenticated := false; activeAccount := None;
     availableAccounts := []; defaultProject := None;
     lastChecked := now |}.

Definition authListCommand : GCloudCommand :=
  {| command := "gcloud auth list --format=json";
     args := ["auth"; "list"; "--format=json"];
     workingDirectory := None; environment := None; timeout := None;
     requiresInteraction := false; supportsJson := true |}.

Definition projectCommand : GCloudCommand :=
  {| command := "gcloud config get-value project --format=json";
     args := ["config"; "get-value"; "project"; "--format=json"];
     workingDirectory := None; environment := None; timeout := None;
     requiresInteraction := false; supportsJson := true |}.

(** An object built by [JSON.parse] keeps the last of several equal
    keys. *)
Definition lastField (key : string) (fields : list (string * Json))
  : option Json :=
  fold_left
    (fun found kv => if String.eqb (fst kv) key then Some (snd kv) else found)
    fields None.

(** [v.key] for a key that no prototype defines ([status], [account]):
    a [TypeError] on [null] (outer [None]), the own property of an
    object, [undefined] on every other value. *)
Definition getProperty (key : string) (v : Json) : option (option Json) :=
  match v with
  | JNull => None
  | JObject fields => Some (lastField key fields)
  | _ => Some None
  end.

Definition isActive (st : option Json) : bool :=
  match st with
  | Some (JString s) => String.eqb s "ACTIVE"
  | _ => false
  end.

(** [accounts.find(acc => acc.status === 'ACTIVE')]; the outer [None]
    is the [TypeError] of reading [status] on a [null] element. *)
Fixpoint findActive (items : list Json) : option (option Json) :=
  match items with
  | [] => Some None
  | acc :: rest =>
      st ← getProperty "status" acc;
      if isActive st then Some (Some acc) else findActive rest
  end.

(** [accounts.find(...)?.account] *)
Definition activeAccountOf (items : list Json) : option (option Json) :=
  found ← findActive items;
  match found with
  | Some acc => getProperty "account" acc
  | None => Some None
  end.

(** [accounts.map(acc => acc.account)] *)
Definition accountsOf (items : list Json) : option (list (option Json)) :=
  mapM (getProperty "account") items.

Section Probe.

(** [JSON.parse], with [None] for a [SyntaxError]. *)
Variable JSON_parse : string -> option Json.

(** The second [try] block: the default project read from the second
    execution. *)
Definition defaultProjectOf (projectExecution : CommandExecution)
  : option Json :=
  if bool_decide (status projectExecution = Completed) then
    match JSON_parse (Js.join "" (stdout projectExecution)) with
    | Some (JString s) =>
        if String.eqb s "(unset)" then None else Some (JString s)
    | Some v => Some v
    | None => None
    end
  else None.

(** [getAuthenticationStatus()], the two executions running in the
    worlds [w1] and [w2].  Every exception raised in the body (a
    rejection of [executeCommand], a [TypeError] on the parsed
    value) reaches the outer [catch]. *)
Definition getAuthenticationStatus (w1 w2 : World) (now : Z)
  : Awaited AuthenticationStatus * list Effect :=
  match executeCommand w1 authListCommand with
  | (Throws _, effs) => (Returns (notAuthenticated now), effs)
  | (NeverSettles, effs) => (NeverSettles, effs)
  | (Returns execution, effs) =>
      if negb (bool_decide (status execution = Completed)) then
        (Returns (notAuthenticated now), effs)
      else
        match JSON_parse (Js.join "" (stdout execution)) with
        | None => (Returns (notAuthenticated now), effs)
        | Some (JArray items) =>
            match activeAccountOf items with
            | None => (Returns (notAuthenticated now), effs)
            | Some active =>
                match executeCommand w2 projectCommand with
                | (Throws _, effs2) =>
                    (Returns (notAuthenticated now), effs ++ effs2)
                | (NeverSettles, effs2) => (NeverSettles, effs ++ effs2)
                | (Returns projectExecution, effs2) =>
                    match accountsOf items with
                    | None =>
                        (Returns (notAuthenticated now), effs ++ effs2)
                    | Some accounts =>
                        (Returns
                           {| isAuthenticated :=
                                (0 <? length items)%nat;
                              activeAccount := active;
                              availableAccounts := accounts;
                              defaultProject :=
                                defaultProjectOf projectExecution;
                              lastChecked := now |},
                         effs ++ effs2)
                    end
                end
            end
        | Some _ =>
            (* accounts.find is not a function *)
            (Returns (notAuthenticated now), effs)
        end
  end.

End Probe.

End AuthProbe.

(** ** Runs: vocabulary for the statements *)

Module Runs.
Import GCloudApiClient.

Definition isData (ev : ChildEvent) : bool :=
  match ev with
  | StdoutData _ | StderrData _ => true
  | _ => false
  end.

(** The lines that a list of events pushes on each stream. *)
Definition stdoutLines (evs : list ChildEvent) : list string :=
  flat_map (fun ev => match ev with
                      | StdoutData chunk => chunkLines chunk
                      | _ => []
                      end) evs.

Definition stderrLines (evs : list ChildEvent) : list string :=
  flat_map (fun ev => match ev with
                      | StderrData chunk => chunkLines chunk
                      | _ => []
                      end) evs.

(** The state reached from [rs] when only output arrives. *)
Definition afterData (rs : RunState) (pre : list ChildEvent) : RunState :=
  {| execution :=
       push_stderr (stderrLines pre)
                   (push_stdout (stdoutLines pre) (execution rs));
     promise := promise rs;
     timerArmed := timerArmed rs;
     stdoutLineNumber := (stdoutLineNumber rs + length (stdoutLines pre))%nat;
     stderrLineNumber := (stderrLineNumber rs + length (stderrLines pre))%nat;
     effects := effects rs |}.

(** The three checks of [executeCommand] before the execution object is
    created. *)
Definition preconditionsHold (w : World) (c : GCloudCommand) : bool :=
  Js.startsWith (command c) "gcloud " &&
  isGCloudAvailable (versionProbe w) &&
  match workingDirectory c with
  | Some d => negb (Js.truthy d) || existsSync w d
  | None => true
  end.

(** The record that the ['close'] handler leaves for a run that was
    not cancelled. *)
Definition closedExecution (w : World) (c : GCloudCommand)
    (childPid : option Z) (pre : list ChildEvent) (code : option Z)
    (now : Z) : CommandExecution :=
  {| id := randomUUID w; cmd := c;
     status := match code with Some 0 => Completed | _ => Failed end;
     startTime := clock w; endTime := Some now;
     exitCode := Some (codeOrZero code);
     stdout := stdoutLines pre; stderr := stderrLines pre;
     cancelled := false; pid := childPid |}.

(** The failures found before the execution object exists, in the
    order of the checks. *)
Definition preconditionViolation (w : World) (c : GCloudCommand)
    (e : GCloudError) : Prop :=
  (Js.startsWith (command c) "gcloud " = false /\ e = notGcloudError) \/
  (Js.startsWith (command c) "gcloud " = true /\
   isGCloudAvailable (versionProbe w) = false /\ e = sdkNotFoundError) \/
  (Js.startsWith (command c) "gcloud " = true /\
   isGCloudAvailable (versionProbe w) = true /\
   exists d, workingDirectory c = Some d /\ Js.truthy d = true /\
             existsSync w d = false /\ e = missingDirectoryError d).

(** The failures of the run itself that reject the promise: [spawn]
    throwing, the timer firing, an ['error'] event, and a ['close']
    with a code other than 0 whose stderr shows an authentication
    marker. *)
Definition runFailure (w : World) (c : GCloudCommand) (e : GCloudError)
  : Prop :=
  (exists msg now, spawnResult w = SpawnThrows msg now /\
               e = plainError ("Failed to start command: " +:+ msg)) \/
  (exists childPid pre ev rest,
      spawnResult w = Spawned childPid /\
      events w = pre ++ ev :: rest /\ forallb isData pre = true /\
      ((ev = TimerFires /\ e = timeoutError (effectiveTimeout (config w) c)) \/
       (exists msg now, ev = ProcessError msg now /\
                        e = plainError ("Process error: " +:+ msg)) \/
       (exists code now, ev = Close code now /\ code <> Some 0 /\
                         checkForAuthError (stderrLines pre) = true /\
                         e = authenticationError code (stderrLines pre)))).

(** The runs whose promise is fulfilled: the first event that is not
    output is a ['close'], with code 0 or with no authentication marker
    in stderr. *)
Definition runReturns (w : World) (c : GCloudCommand) (x : CommandExecution)
  : Prop :=
  exists childPid pre code now rest,
    spawnResult w = Spawned childPid /\
    events w = pre ++ Close code now :: rest /\ forallb isData pre = true /\
    (code = Some 0 \/ checkForAuthError (stderrLines pre) = false) /\
    x = closedExecution w c childPid pre code now.

(** The error object that a call hands to its caller, if any. *)
Definition producedError (a : Awaited CommandExecution) : option GCloudError :=
  match a with
  | Throws e => Some e
  | _ => None
  end.

(** Number of format requests in an argument list. *)
Definition countFormatFlags (l : list string) : nat :=
  length (List.filter (fun arg => Js.startsWith arg "--format=") l).

(** The execution object after a series of calls of [cancelExecution],
    one per clock reading. *)
Definition cancelRepeatedly (kill : Z -> option string) (nows : list Z)
    (e : CommandExecution) : CommandExecution :=
  fold_left (fun e now => (cancelExecution kill now e).1.2) nows e.

(** The shared execution object after each event of a spawned run, in
    order of delivery. *)
Fixpoint statusHistory (ms : Z) (rs : RunState) (evs : list ChildEvent)
  : list ExecutionStatus :=
  match evs with
  | [] => []
  | ev :: rest =>
      status (execution (deliver ms rs ev))
      :: statusHistory ms (deliver ms rs ev) rest
  end.

End Runs.

(** ** Sample inputs *)

Module Samples.
Import GCloudApiClient.

Definition projectsList : GCloudCommand :=
  {| command := "gcloud projects list";
     args := ["projects"; "list"];
     workingDirectory := None; environment := None;
     timeout := Some 10;
     requiresInteraction := false; supportsJson := true |}.

(** The command as the caller typed it, without the prefix. *)
Definition bareCommand : GCloudCommand :=
  {| command := "projects list";
     args := ["projects"; "list"];
     workingDirectory := None; environment := None;
     timeout := None;
     requiresInteraction := false; supportsJson := true |}.

Definition plainConfig : GCloudConfig :=
  {| preferJsonOutput := false; defaultTimeout := None |}.

Definition jsonConfig : GCloudConfig :=
  {| preferJsonOutput := true; defaultTimeout := None |}.

(** A machine with the SDK installed, on which the child gets pid 4242
    and then produces the given events. *)
Definition world (evs : list ChildEvent) : World :=
  {| versionProbe := ProbeExit (Some 0);
     existsSync := fun _ => true;
     config := plainConfig;
     processEnv := ∅;
     randomUUID := "0b5e4c1e-0000-4000-8000-000000000001";
     clock := 1000;
     spawnResult := Spawned (Some 4242);
     events := evs |}.

(** A finished execution, as a caller holds it after the call. *)
Definition finished (s : ExecutionStatus) : CommandExecution :=
  {| id := "0b5e4c1e-0000-4000-8000-000000000001";
     cmd := projectsList; status := s;
     startTime := 1000; endTime := Some 1500; exitCode := Some 0;
     stdout := ["[]"]; stderr := []; cancelled := false;
     pid := Some 4242 |}.

(** The child is still running when the timer fires. *)
Definition timeoutWorld : World := world [TimerFires].

(** The same with some output first; the child ends after the signal. *)
Definition slowWorld : World :=
  world [StdoutData "listing"; TimerFires; Close None 1100].

(** The command exits with code 1 after an ordinary error message. *)
Definition plainFailureWorld : World :=
  world [StderrData "ERROR: (gcloud.projects.list) boom"; Close (Some 1) 1500].

(** The command exits with code 1 after an authentication message. *)
Definition authFailureWorld : World :=
  world [StderrData "ERROR: You are Not Authenticated"; Close (Some 1) 1500].

(** The child is ended by a signal: ['close'] reports a null code. *)
Definition signalledWorld : World :=
  world [Close None 1500].

(** The timer fires just before the ['close'] of a child that has
    exited with code 0 is delivered. *)
Definition lateCloseWorld : World :=
  world [TimerFires; Close (Some 0) 1500].

(** A command string with a shell operator in it. *)
Definition chainedCommand : GCloudCommand :=
  {| command := "gcloud version;id";
     args := ["version;id"];
     workingDirectory := None; environment := None;
     timeout := None;
     requiresInteraction := false; supportsJson := false |}.

(** The output of [gcloud auth list --format=json] for one active
    account. *)
Definition accountsText : string :=
  "[{" +:+ Js.dq +:+ "account" +:+ Js.dq +:+ ":" +:+ Js.dq
  +:+ "dev@example.com" +:+ Js.dq +:+ "," +:+ Js.dq +:+ "status" +:+ Js.dq
  +:+ ":" +:+ Js.dq +:+ "ACTIVE" +:+ Js.dq +:+ "}]".

Definition accountsValue : Json :=
  JArray [JObject [("account", JString "dev@example.com");
                   ("status", JString "ACTIVE")]].

(** A parser that agrees with [JSON.parse] on [accountsText] and on
    the text that is not JSON at all used below. *)
Definition parseSample (s : string) : option Json :=
  if String.eqb s accountsText then Some accountsValue else None.

(** The first probe command succeeds and prints the accounts. *)
Definition accountsWorld : World :=
  world [StdoutData accountsText; Close (Some 0) 1200].

(** The second probe command fails with exit code 1. *)
Definition projectFailsWorld : World :=
  world [StderrData "ERROR: (gcloud.config.get-value) failed";
         Close (Some 1) 1400].

End Samples.

(** ** The operations facade ([operations.ts]) *)

(** [GCloudInput], the input of the tool ([gcloudInputSchema]). *)
Module GCloudInput.

Inductive Format := json | raw | auto.

Record t := {
  command : string;
  workingDirectory : option string;
  timeout : option Z;
  format : Format;
  interactive : option bool;
  environment : option (gmap string string)
}.

End GCloudInput.

(** What [structuredOutput] holds: a parsed JSON value, or the snapshot
    of the authentication probe. *)
Inductive Structured :=
| SJson (v : Json)
| SStatus (s : AuthenticationStatus).

(** [GCloudToolOutput]; an absent field is [None] (for [exitCode], the
    [null] that a [GCloudError] can carry is [None] as well). *)
Module GCloudToolOutput.

Record t := {
  command : string;
  success : bool;
  exitCode : option Z;
  stdout : option (list string);
  stderr : option (list string);
  executionTime : option Z;
  cancelled : option bool;
  error : option string;
  authenticationRequired : option bool;
  suggestions : option (list string);
  structuredOutput : option Structured
}.

(** The result with the two mandatory fields only. *)
Definition bare (c : string) (ok : bool) : t :=
  {| command := c; success := ok; exitCode := None; stdout := None;
     stderr := None; executionTime := None; cancelled := None;
     error := None; authenticationRequired := None; suggestions := None;
     structuredOutput := None |}.

End GCloudToolOutput.

Module GCloudOperations.

Definition sdkNotFoundMessage : string :=
  "Google Cloud SDK not found. Please install it from https://cloud.google.com/sdk/docs/install".

(** The result returned when [isGCloudAvailable] answers [false]. *)
Definition sdkNotFoundResult (c : string) : GCloudToolOutput.t :=
  {| GCloudToolOutput.command := c;
     GCloudToolOutput.success := false;
     GCloudToolOutput.exitCode := None;
     GCloudToolOutput.stdout := None;
     GCloudToolOutput.stderr := None;
     GCloudToolOutput.executionTime := None;
     GCloudToolOutput.cancelled := None;
     GCloudToolOutput.error := Some sdkNotFoundMessage;
     GCloudToolOutput.authenticationRequired := None;
     GCloudToolOutput.suggestions :=
       Some ["Install Google Cloud SDK"; "Add gcloud to your PATH"];
     GCloudToolOutput.structuredOutput := None |}.

(** [input.command.startsWith('gcloud ') ? input.command :
     `gcloud ${input.command}`] *)
Definition fullCommand (s : string) : string :=
  if Js.startsWith s "gcloud " then s else "gcloud " +:+ s.

Definition nonJsonCommands : list string :=
  [ "init"; "components"; "feedback"; "help"; "topic"; "version";
    "alpha"; "beta"; "docker"; "emulators"; "interactive" ].

(** [detectJsonSupport(args)] *)
Definition detectJsonSupport (l : list string) : bool :=
  match l with
  | first :: _ => negb (existsb (String.eqb first) nonJsonCommands)
  | [] => true
  end.

(** [prepareCommand(input)] *)
Definition prepareCommand (input : GCloudInput.t) : GCloudCommand :=
  let full := fullCommand (GCloudInput.command input) in
  let l := Js.splitSpaces (Js.stripGcloud full) in
  {| command := full;
     args := l;
     workingDirectory := GCloudInput.workingDirectory input;
     environment := GCloudInput.environment input;
     timeout := GCloudInput.timeout input;
     requiresInteraction :=
       match GCloudInput.interactive input with
       | Some b => b
       | None => false
       end;
     supportsJson := detectJsonSupport l |}.

(** The result built from a rejection of the client. *)
Definition errorResult (c : string) (e : GCloudError) : GCloudToolOutput.t :=
  {| GCloudToolOutput.command := c;
     GCloudToolOutput.success := false;
     GCloudToolOutput.exitCode := errExitCode e;
     GCloudToolOutput.stdout := None;
     GCloudToolOutput.stderr := errStderr e;
     GCloudToolOutput.executionTime := None;
     GCloudToolOutput.cancelled := None;
     GCloudToolOutput.error := Some (message e);
     GCloudToolOutput.authenticationRequired := authenticationRequired e;
     GCloudToolOutput.suggestions := suggestions e;
     GCloudToolOutput.structuredOutput := None |}.

Section Facade.

(** [JSON.parse], with [None] for a [SyntaxError]. *)
Variable JSON_parse : string -> option Json.

(** The structured output read from a returned execution: parsed only
    for a command that supports JSON and printed something; a parse
    error is ignored. *)
Definition structuredOf (c : GCloudCommand) (execution : CommandExecution)
  : option Structured :=
  if supportsJson c && (0 <? length (stdout execution))%nat then
    SJson <$> JSON_parse (Js.join "" (stdout execution))
  else None.

(** The result built from a returned execution. *)
Definition executionResult (input : GCloudInput.t) (c : GCloudCommand)
    (execution : CommandExecution) (elapsed : Z) : GCloudToolOutput.t :=
  {| GCloudToolOutput.command := GCloudInput.command input;
     GCloudToolOutput.success := bool_decide (status execution = Completed);
     GCloudToolOutput.exitCode := exitCode execution;
     GCloudToolOutput.stdout := Some (stdout execution);
     GCloudToolOutput.stderr := Some (stderr execution);
     GCloudToolOutput.executionTime := Some elapsed;
     GCloudToolOutput.cancelled := Some (cancelled execution);
     GCloudToolOutput.error := None;
     GCloudToolOutput.authenticationRequired := None;
     GCloudToolOutput.suggestions := None;
     GCloudToolOutput.structuredOutput := structuredOf c execution |}.

(** [executeCommand(input)] of the facade.  [probe] is the outcome of
    its own call of [isGCloudAvailable], [w] the world of the client's
    [executeCommand], [startMs] and [endMs] the two readings of
    [Date.now()].  Every error the client throws is a [GCloudError]. *)
Definition executeCommand (probe : VersionProbe) (w : World)
    (startMs endMs : Z) (input : GCloudInput.t)
  : Awaited GCloudToolOutput.t * list Effect :=
  if negb (GCloudApiClient.isGCloudAvailable probe) then
    (Returns (sdkNotFoundResult (GCloudInput.command input)),
     [EffSpawn GCloudApiClient.versionRequest])
  else
    let c := prepareCommand input in
    match GCloudApiClient.executeCommand w c with
    | (Returns execution, effs) =>
        (Returns (executionResult input c execution (endMs - startMs)),
         EffSpawn GCloudApiClient.versionRequest :: effs)
    | (Throws e, effs) =>
        (Returns (errorResult (GCloudInput.command input) e),
         EffSpawn GCloudApiClient.versionRequest :: effs ++ [EffLog (message e)])
    | (NeverSettles, effs) =>
        (NeverSettles, EffSpawn GCloudApiClient.versionRequest :: effs)
    end.

Definition notAuthenticatedMessage : string :=
  "Not authenticated with Google Cloud SDK".

(** The result built from a snapshot of the probe. *)
Definition statusResult (s : AuthenticationStatus) : GCloudToolOutput.t :=
  {| GCloudToolOutput.command := "auth list";
     GCloudToolOutput.success := isAuthenticated s;
     GCloudToolOutput.exitCode := None;
     GCloudToolOutput.stdout := None;
     GCloudToolOutput.stderr := None;
     GCloudToolOutput.executionTime := None;
     GCloudToolOutput.cancelled := None;
     GCloudToolOutput.error :=
       if isAuthenticated s then None else Some notAuthenticatedMessage;
     GCloudToolOutput.authenticationRequired := Some (negb (isAuthenticated s));
     GCloudToolOutput.suggestions :=
       if isAuthenticated s then None
       else Some GCloudApiClient.loginSuggestions;
     GCloudToolOutput.structuredOutput := Some (SStatus s) |}.

(** [checkAuthenticationStatus()] *)
Definition checkAuthenticationStatus (w1 w2 : World) (now : Z)
  : Awaited GCloudToolOutput.t * list Effect :=
  match AuthProbe.getAuthenticationStatus JSON_parse w1 w2 now with
  | (Returns s, effs) => (Returns (statusResult s), effs)
  | (Throws e, effs) =>
      (Returns
         {| GCloudToolOutput.command := "auth list";
            GCloudToolOutput.success := false;
            GCloudToolOutput.exitCode := None;
            GCloudToolOutput.stdout := None;
            GCloudToolOutput.stderr := None;
            GCloudToolOutput.executionTime := None;
            GCloudToolOutput.cancelled := None;
            GCloudToolOutput.error := Some (message e);
            GCloudToolOutput.authenticationRequired := Some true;
            GCloudToolOutput.suggestions :=
              Some GCloudApiClient.loginSuggestions;
            GCloudToolOutput.structuredOutput := None |},
       effs ++ [EffLog (message e)])
  | (NeverSettles, effs) => (NeverSettles, effs)
  end.

End Facade.

(** [cancelCommand(execution)] *)
Definition cancelCommand (kill : Z -> option string) (now : Z)
    (e : CommandExecution) : bool * CommandExecution * list Effect :=
  GCloudApiClient.cancelExecution kill now e.

End GCloudOperations.

(** ** [formatCommandForDisplay] ([formatters.ts]) *)

Module Formatters.

Definition formatCommandForDisplay (c : string) : string :=
  if Js.startsWith c "gcloud " then c else "gcloud " +:+ c.

End Formatters.

(** ** The tool ([GCloudTool.call]) *)

Module GCloudTool.

(** The worlds of the calls that [call] makes, in order: its own
    availability check, the two commands of the authentication probe
    with the clock reading of the snapshot, the availability check of
    the facade, and the command itself between two readings of
    [Date.now()]. *)
Record ToolWorld := {
  toolProbe : VersionProbe;
  authWorld1 : World;
  authWorld2 : World;
  authNow : Z;
  facadeProbe : VersionProbe;
  commandWorld : World;
  startMs : Z;
  endMs : Z
}.

(** A yielded value [{ type: 'result', data, resultForAssistant }]. *)
Record ToolResult := {
  data : GCloudToolOutput.t;
  resultForAssistant : string
}.

Section Tool.

(** [JSON.parse], with [None] for a [SyntaxError]. *)
Variable JSON_parse : string -> option Json.

(** [this.renderResultForAssistant], the formatting of a result as text
    for the assistant; [call] stores what it returns and does not look
    at it. *)
Variable renderResultForAssistant : GCloudToolOutput.t -> string.

Definition result (r : GCloudToolOutput.t) : ToolResult :=
  {| data := r; resultForAssistant := renderResultForAssistant r |}.

(** The result yielded from the [catch] of [call]. *)
Definition unexpectedResult (c : string) (e : GCloudError) : GCloudToolOutput.t :=
  {| GCloudToolOutput.command := c;
     GCloudToolOutput.success := false;
     GCloudToolOutput.exitCode := None;
     GCloudToolOutput.stdout := None;
     GCloudToolOutput.stderr := None;
     GCloudToolOutput.executionTime := None;
     GCloudToolOutput.cancelled := None;
     GCloudToolOutput.error := Some ("Unexpected error: " +:+ message e);
     GCloudToolOutput.authenticationRequired := None;
     GCloudToolOutput.suggestions := None;
     GCloudToolOutput.structuredOutput := None |}.

(** The test that stops a command when the probe reports no
    authentication:
    [!authStatus.success && !input.command.startsWith('auth ') &&
     !input.command.includes('auth ')]. *)
Definition stoppedForAuthentication (authStatus : GCloudToolOutput.t)
    (input : GCloudInput.t) : bool :=
  negb (GCloudToolOutput.success authStatus)
  && negb (Js.startsWith (GCloudInput.command input) "auth ")
  && negb (Js.includes (GCloudInput.command input) "auth ").

(** [call(input, context)]: the values yielded once the generator has
    finished, with the effects. *)
Definition call (tw : ToolWorld) (input : GCloudInput.t)
  : Awaited (list ToolResult) * list Effect :=
  if negb (GCloudApiClient.isGCloudAvailable (toolProbe tw)) then
    (Returns [result (GCloudOperations.sdkNotFoundResult
                        (GCloudInput.command input))],
     [EffSpawn GCloudApiClient.versionRequest])
  else
    match GCloudOperations.checkAuthenticationStatus JSON_parse
            (authWorld1 tw) (authWorld2 tw) (authNow tw) with
    | (Returns authStatus, effs) =>
        if stoppedForAuthentication authStatus input then
          (Returns [result authStatus],
           EffSpawn GCloudApiClient.versionRequest :: effs)
        else
          match GCloudOperations.executeCommand JSON_parse (facadeProbe tw)
                  (commandWorld tw) (startMs tw) (endMs tw) input with
          | (Returns r, effs2) =>
              (Returns [result r],
               EffSpawn GCloudApiClient.versionRequest :: effs ++ effs2)
          | (Throws e, effs2) =>
              (Returns [result (unexpectedResult (GCloudInput.command input) e)],
               EffSpawn GCloudApiClient.versionRequest :: effs ++ effs2)
          | (NeverSettles, effs2) =>
              (NeverSettles,
               EffSpawn GCloudApiClient.versionRequest :: effs ++ effs2)
          end
    | (Throws e, effs) =>
        (Returns [result (unexpectedResult (GCloudInput.command input) e)],
         EffSpawn GCloudApiClient.versionRequest :: effs)
    | (NeverSettles, effs) =>
        (NeverSettles, EffSpawn GCloudApiClient.versionRequest :: effs)
    end.

End Tool.

End GCloudTool.

(** ** Vocabulary for the further properties *)

Module More.
Import GCloudApiClient Runs.

(** Inputs as the caller types them. *)
Definition input (c : string) : GCloudInput.t :=
  {| GCloudInput.command := c;
     GCloudInput.workingDirectory := None;
     GCloudInput.timeout := None;
     GCloudInput.format := GCloudInput.auto;
     GCloudInput.interactive := None;
     GCloudInput.environment := None |}.

(** The result of [auth list] in [Samples.accountsWorld], 200 ms. *)
Definition accountsResult : GCloudToolOutput.t :=
  {| GCloudToolOutput.command := "auth list";
     GCloudToolOutput.success := true;
     GCloudToolOutput.exitCode := Some 0;
     GCloudToolOutput.stdout := Some [Samples.accountsText];
     GCloudToolOutput.stderr := Some [];
     GCloudToolOutput.executionTime := Some 200;
     GCloudToolOutput.cancelled := Some false;
     GCloudToolOutput.error := None;
     GCloudToolOutput.authenticationRequired := None;
     GCloudToolOutput.suggestions := None;
     GCloudToolOutput.structuredOutput :=
       Some (SJson Samples.accountsValue) |}.

(** An execution whose child, pid 4242, is running. *)
Definition runningExecution : CommandExecution :=
  {| id := "0b5e4c1e-0000-4000-8000-000000000002";
     cmd := Samples.projectsList; status := Running;
     startTime := 1000; endTime := None; exitCode := None;
     stdout := []; stderr := []; cancelled := false;
     pid := Some 4242 |}.

(** The same input with another [format]. *)
Definition withFormat (f : GCloudInput.Format) (input : GCloudInput.t)
  : GCloudInput.t :=
  {| GCloudInput.command := GCloudInput.command input;
     GCloudInput.workingDirectory := GCloudInput.workingDirectory input;
     GCloudInput.timeout := GCloudInput.timeout input;
     GCloudInput.format := f;
     GCloudInput.interactive := GCloudInput.interactive input;
     GCloudInput.environment := GCloudInput.environment input |}.

(** The same world with other events for the child. *)
Definition withEvents (evs : list ChildEvent) (w : World) : World :=
  {| versionProbe := versionProbe w; existsSync := existsSync w;
     config := config w; processEnv := processEnv w;
     randomUUID := randomUUID w; clock := clock w;
     spawnResult := spawnResult w; events := evs |}.

(** The same run state around another execution object. *)
Definition withExecution (e : CommandExecution) (rs : RunState) : RunState :=
  {| execution := e; promise := promise rs; timerArmed := timerArmed rs;
     stdoutLineNumber := stdoutLineNumber rs;
     stderrLineNumber := stderrLineNumber rs; effects := effects rs |}.

(** Number of signals sent. *)
Definition killCount (effs : list Effect) : nat :=
  length (List.filter (fun eff => match eff with EffKill _ => true | _ => false end)
                      effs).

(** Number of processes spawned. *)
Definition spawnCount (effs : list Effect) : nat :=
  length (List.filter (fun eff => match eff with EffSpawn _ => true | _ => false end)
                      effs).

(** The string holds a line feed. *)
Fixpoint hasLineFeed (s : string) : bool :=
  match s with
  | EmptyString => false
  | String c s' => Ascii.eqb c "010" || hasLineFeed s'
  end.

(** The string holds a white space character. *)
Fixpoint hasSpace (s : string) : bool :=
  match s with
  | EmptyString => false
  | String c s' => Js.is_space c || hasSpace s'
  end.

(** A word: not empty, without white space. *)
Definition isWord (s : string) : bool := Js.truthy s && negb (hasSpace s).

(** [l1] is a prefix of [l2]. *)
Definition extends (l1 l2 : list string) : Prop := exists more, l2 = l1 ++ more.

End More.

(** * Properties *)

(** ** String primitives on examples *)

Example splitSpaces_ex1 :
  Js.splitSpaces "projects  list" = ["projects"; "list"].
Proof. reflexivity. Qed.

Example splitSpaces_ex2 : Js.splitSpaces "" = [""].
Proof. reflexivity. Qed.

Example splitSpaces_ex3 : Js.splitSpaces "a " = ["a"; ""].
Proof. reflexivity. Qed.

Example stripGcloud_ex :
  Js.stripGcloud "gcloud   auth list" = "auth list".
Proof. reflexivity. Qed.


(** ** Runs of [runCommand] *)

Module RunFacts.
Import GCloudApiClient Runs.


Lemma settle_keeps new old : old <> Unsettled -> settle new old = old.
Proof. destruct old; simpl; congruence. Qed.

Lemma deliver_keeps ms rs ev :
  promise rs <> Unsettled -> promise (deliver ms rs ev) = promise rs.
Proof.
  intros H. destruct ev as [chunk|chunk| |code now|msg now]; simpl; trivial.
  - destruct (timerArmed rs); simpl; auto using settle_keeps.
  - unfold onClose.
    destruct (cancelled _); simpl; auto using settle_keeps.
    destruct code as [[| |]|]; simpl; auto using settle_keeps;
      destruct (checkForAuthError _); simpl; auto using settle_keeps.
  - auto using settle_keeps.
Qed.

Lemma deliverAll_keeps ms evs : forall rs,
  promise rs <> Unsettled -> promise (deliverAll ms rs evs) = promise rs.
Proof.
  induction evs as [|ev evs IH]; intros rs H; simpl; trivial.
  unfold deliverAll in *. simpl. rewrite IH.
  - now apply deliver_keeps.
  - rewrite deliver_keeps; assumption.
Qed.

Lemma deliverAll_app ms rs evs1 evs2 :
  deliverAll ms rs (evs1 ++ evs2) = deliverAll ms (deliverAll ms rs evs1) evs2.
Proof. unfold deliverAll. apply fold_left_app. Qed.

Lemma afterData_nil rs : afterData rs [] = rs.
Proof.
  destruct rs as [[] ? ? ? ? ?]. unfold afterData, push_stderr, push_stdout.
  simpl. rewrite !app_nil_r, !Nat.add_0_r. reflexivity.
Qed.

Lemma afterData_cons rs ev pre :
  isData ev = true ->
  afterData (deliver 0 rs ev) pre = afterData rs (ev :: pre).
Proof.
  destruct rs as [[] ? ? ? ? ?].
  destruct ev; simpl; try discriminate; intros _;
    unfold afterData, onStdout, onStderr, push_stderr, push_stdout; simpl;
    rewrite ?length_app, <- ?app_assoc, <- ?Nat.add_assoc; reflexivity.
Qed.

Lemma deliver_data_ms ms ms' rs ev :
  isData ev = true -> deliver ms rs ev = deliver ms' rs ev.
Proof. destruct ev; simpl; congruence. Qed.

(** Output events only push lines. *)
Lemma deliverAll_data ms pre : forall rs,
  forallb isData pre = true -> deliverAll ms rs pre = afterData rs pre.
Proof.
  induction pre as [|ev pre IH]; intros rs H.
  - symmetry. apply afterData_nil.
  - simpl in H. apply andb_true_iff in H as [Hev Hpre].
    unfold deliverAll in *. simpl. rewrite IH by assumption.
    rewrite (deliver_data_ms ms 0) by assumption.
    now apply afterData_cons.
Qed.

(** Every list of events is output only, or has a first event that is
    not output. *)
Lemma first_other_event (evs : list ChildEvent) :
  forallb isData evs = true \/
  exists pre ev rest,
    evs = pre ++ ev :: rest /\ forallb isData pre = true /\ isData ev = false.
Proof.
  induction evs as [|ev evs IH]; [now left|].
  destruct (isData ev) eqn:Hev.
  - destruct IH as [IH | (pre & ev' & rest & -> & Hpre & Hev')].
    + left. simpl. now rewrite Hev.
    + right. exists (ev :: pre), ev', rest. simpl. now rewrite Hev.
  - right. exists [], ev, evs. auto.
Qed.

(** The first event that is not output decides the promise. *)
Lemma run_decided ms rs pre ev rest :
  forallb isData pre = true ->
  promise rs = Unsettled -> timerArmed rs = true ->
  isData ev = false ->
  promise (deliverAll ms rs (pre ++ ev :: rest))
  = promise (deliver ms (afterData rs pre) ev).
Proof.
  intros Hpre Hp Ht Hev.
  rewrite deliverAll_app, (deliverAll_data ms pre rs Hpre).
  change (deliverAll ms (afterData rs pre) (ev :: rest))
    with (deliverAll ms (deliver ms (afterData rs pre) ev) rest).
  apply deliverAll_keeps.
  destruct ev as [chunk|chunk| |code now|msg now]; simpl in *;
    try discriminate.
  - rewrite Ht. simpl. rewrite Hp. discriminate.
  - unfold onClose. simpl.
    destruct (cancelled _); simpl; rewrite ?Hp; try discriminate.
    destruct code as [[| |]|]; simpl; rewrite ?Hp; try discriminate;
      destruct (checkForAuthError _); simpl; rewrite ?Hp; discriminate.
  - rewrite Hp. discriminate.
Qed.

(** A run that only receives output stays unsettled. *)
Lemma run_pending ms rs pre :
  forallb isData pre = true ->
  promise (deliverAll ms rs pre) = promise rs.
Proof. intros H. now rewrite deliverAll_data. Qed.

End RunFacts.


(** ** [executeCommand]: what is thrown and what is returned *)

Module ExecuteFacts.
Import GCloudApiClient Runs RunFacts.


Lemma executeCommand_runs w c :
  preconditionsHold w c = true ->
  (executeCommand w c).1 = awaited (promise (runCommand w (newExecution w c))).
Proof.
  unfold preconditionsHold, executeCommand, directoryMissing.
  intros H. apply andb_true_iff in H as [H Hd].
  apply andb_true_iff in H as [Hs Ha]. rewrite Hs, Ha. simpl.
  destruct (workingDirectory c) as [d|]; [|reflexivity].
  destruct (Js.truthy d); [|reflexivity].
  simpl in Hd. now rewrite Hd.
Qed.

Lemma executeCommand_violation w c :
  preconditionsHold w c = false ->
  exists e, (executeCommand w c).1 = Throws e /\ preconditionViolation w c e.
Proof.
  unfold preconditionsHold, executeCommand, directoryMissing,
    preconditionViolation.
  destruct (Js.startsWith (command c) "gcloud ") eqn:Hs; simpl;
    [|intros _; eexists; split; [reflexivity | now left]].
  destruct (isGCloudAvailable (versionProbe w)) eqn:Ha; simpl;
    [|intros _; eexists; split; [reflexivity | right; now left]].
  destruct (workingDirectory c) as [d|]; [|discriminate].
  destruct (Js.truthy d) eqn:Ht; [|discriminate]. simpl.
  intros Hd. rewrite Hd. eexists. split; [reflexivity|].
  right; right. repeat split; trivial. now exists d.
Qed.

(** The promise of a spawned run, by its first event that is not
    output. *)
Lemma runCommand_decided w c childPid pre ev rest :
  spawnResult w = Spawned childPid ->
  events w = pre ++ ev :: rest -> forallb isData pre = true ->
  isData ev = false ->
  promise (runCommand w (newExecution w c))
  = promise (deliver (effectiveTimeout (config w) c)
                     (afterData (started w (newExecution w c) childPid) pre)
                     ev).
Proof.
  intros Hs He Hpre Hev. unfold runCommand. rewrite Hs, He.
  now apply run_decided.
Qed.

Lemma close_decides w c childPid pre code now :
  promise (deliver (effectiveTimeout (config w) c)
                   (afterData (started w (newExecution w c) childPid) pre)
                   (Close code now))
  = if bool_decide (code = Some 0) then
      Fulfilled (closedExecution w c childPid pre code now)
    else if checkForAuthError (stderrLines pre) then
      Rejected (authenticationError code (stderrLines pre))
    else Fulfilled (closedExecution w c childPid pre code now).
Proof.
  simpl. unfold onClose. simpl.
  destruct code as [[| |]|]; simpl; try reflexivity;
    destruct (checkForAuthError (stderrLines pre)); reflexivity.
Qed.

Lemma runCommand_pending w c childPid :
  spawnResult w = Spawned childPid -> forallb isData (events w) = true ->
  promise (runCommand w (newExecution w c)) = Unsettled.
Proof.
  intros Hs He. unfold runCommand. rewrite Hs.
  now rewrite run_pending.
Qed.

End ExecuteFacts.

(** ** The claims *)

Import GCloudApiClient Runs RunFacts ExecuteFacts.

(** C9.  A command whose string does not start with the prefix
    ["gcloud "] makes [executeCommand] throw the
    [Command must start with "gcloud"] error at once: the list of effects
    is empty, so neither the availability check (a spawn of
    [gcloud version]), nor the working-directory check, nor the spawn of
    the command has taken place. *)
Theorem executeCommand_rejects_foreign_command (w : World) (c : GCloudCommand) :
  Js.startsWith (command c) "gcloud " = false ->
  executeCommand w c = (Throws notGcloudError, []).
Proof.
  intros H. unfold executeCommand. now rewrite H.
Qed.

Lemma executeCommand_rejects_foreign_command_witness :
  Js.startsWith (command Samples.bareCommand) "gcloud " = false /\
  executeCommand (Samples.world []) Samples.bareCommand
  = (Throws notGcloudError, []).
Proof.
  split; [reflexivity|].
  apply (executeCommand_rejects_foreign_command
           (Samples.world []) Samples.bareCommand).
  reflexivity.
Defined.

(** C1 (as the code has it).  [executeCommand] throws exactly in these
    cases: a pre-condition violation (command not starting with
    ["gcloud "], SDK not available, declared working directory missing),
    or, once the pre-conditions hold, a failure of the run: [spawn]
    throwing, the timeout expiring, an ['error'] event of the child, or a
    ['close'] with a code other than 0 whose stderr carries an
    authentication marker.  It returns an execution record exactly when
    the first event other than output is a ['close'] with code 0 or
    without an authentication marker in stderr; so, among the failures
    of the run, only an exit other than 0 without authentication marker
    is captured inside the returned record. *)
Theorem executeCommand_outcomes (w : World) (c : GCloudCommand) :
  (forall e,
      (executeCommand w c).1 = Throws e <->
      preconditionViolation w c e \/
      (preconditionsHold w c = true /\ runFailure w c e)) /\
  (forall x,
      (executeCommand w c).1 = Returns x <->
      preconditionsHold w c = true /\ runReturns w c x).
Proof.
  destruct (preconditionsHold w c) eqn:Hpre.
  - (* the run takes place *)
    pose proof (executeCommand_runs w c Hpre) as Hrun.
    assert (Hnv : forall e, ~ preconditionViolation w c e).
    { intros e Hv. unfold preconditionsHold in Hpre.
      apply andb_true_iff in Hpre as [Hpre Hd].
      apply andb_true_iff in Hpre as [Hs Ha].
      destruct Hv as [[H _]|[(_ & H & _)|(_ & _ & d & Hw & Ht & He & _)]];
        try congruence.
      rewrite Hw, Ht, He in Hd. discriminate. }
    destruct (spawnResult w) as [msg tm|childPid] eqn:Hsp.
    + (* spawn throws *)
      assert (Hp : promise (runCommand w (newExecution w c))
                   = Rejected (plainError ("Failed to start command: " +:+ msg))).
      { unfold runCommand. now rewrite Hsp. }
      rewrite Hrun, Hp. simpl. split.
      * intros e. split.
        -- intros [= <-]. right. split; trivial. left. now exists msg, tm.
        -- intros [Hv|[_ [(m & t & Hm & ->)|(p & pre & ev & rest & Hs & _)]]];
             [now apply Hnv in Hv | congruence | congruence].
      * intros x. split; [discriminate|].
        intros [_ (p & pre & code & now & rest & Hs & _)]. congruence.
    + destruct (first_other_event (events w))
        as [Hall|(pre & ev & rest & Hev & Hdata & Hother)].
      * (* only output: the promise stays pending *)
        rewrite Hrun, (runCommand_pending w c childPid Hsp Hall). simpl.
        assert (Hno : forall pre ev rest,
                   events w = pre ++ ev :: rest -> isData ev = false -> False).
        { intros pre ev rest He Hd. rewrite He, forallb_app in Hall.
          apply andb_true_iff in Hall as [_ Hall]. simpl in Hall.
          rewrite Hd in Hall. discriminate. }
        split.
        -- intros e. split; [discriminate|].
           intros [Hv|[_ [(m & t0 & Hm & _)|(p & pre & ev & rest & _ & He & _ & Hk)]]];
             [now apply Hnv in Hv | congruence |].
           exfalso. apply (Hno pre ev rest He).
           destruct Hk as [[-> _]|[(m & t & -> & _)|(k & t & -> & _)]];
             reflexivity.
        -- intros x. split; [discriminate|].
           intros [_ (p & pre & code & now & rest & _ & He & _)].
           exfalso. now apply (Hno pre (Close code now) rest He).
      * (* a first event other than output *)
        assert (Huniq : forall pre' ev' rest',
                   events w = pre' ++ ev' :: rest' ->
                   forallb isData pre' = true -> isData ev' = false ->
                   pre' = pre /\ ev' = ev).
        { rewrite Hev. clear -Hdata Hother.
          revert Hdata. induction pre as [|a pre IH]; intros Hdata pre' ev' rest'.
          - destruct pre' as [|b pre']; simpl.
            + intros [= <- _]. auto.
            + intros [= -> _] Hb. simpl in Hb. rewrite Hother in Hb.
              discriminate.
          - simpl in Hdata. apply andb_true_iff in Hdata as [Ha Hdata].
            destruct pre' as [|b pre']; simpl.
            + intros [= <- _] _ Hb. rewrite Ha in Hb. discriminate.
            + intros [= <- Heq] Hb Hc. apply andb_true_iff in Hb as [_ Hb].
              destruct (IH Hdata pre' ev' rest' Heq Hb Hc) as [-> ->]. auto. }
        rewrite Hrun, (runCommand_decided w c childPid pre ev rest Hsp Hev Hdata Hother).
        destruct ev as [chunk|chunk| |code now|msg now]; try discriminate.
        -- (* the timer *)
           simpl. split.
           ++ intros e. split.
              ** intros [= <-]. right. split; trivial. right.
                 exists childPid, pre, TimerFires, rest.
                 repeat split; trivial. now left.
              ** intros [Hv|[_ [(m & t0 & Hm & _)|(p & pre' & ev' & rest' & _ & He & Hd & Hk)]]];
                   [now apply Hnv in Hv | congruence |].
                 destruct Hk as [[-> ->]|[(m & t & -> & _)|(k & t & -> & _)]];
                   [reflexivity | |];
                   destruct (Huniq _ _ _ He Hd eq_refl) as [_ [=]].
           ++ intros x. split; [discriminate|].
              intros [_ (p & pre' & code & now & rest' & _ & He & Hd & _)].
              destruct (Huniq _ _ _ He Hd eq_refl) as [_ [=]].
        -- (* close *)
           rewrite close_decides. split.
           ++ intros e. split.
              ** intros H. right. split; trivial. right.
                 exists childPid, pre, (Close code now), rest.
                 repeat split; trivial. right; right. exists code, now.
                 case_bool_decide; [discriminate|].
                 destruct (checkForAuthError (stderrLines pre)) eqn:Hauth;
                   [|discriminate].
                 simpl in H. injection H as <-. auto.
              ** intros [Hv|[_ [(m & t0 & Hm & _)|(p & pre' & ev' & rest' & _ & He & Hd & Hk)]]];
                   [now apply Hnv in Hv | congruence |].
                 destruct Hk as [[-> _]|[(m & t & -> & _)|(k & t & -> & Hk & Hauth & ->)]];
                   try (destruct (Huniq _ _ _ He Hd eq_refl) as [_ [=]]; fail).
                 destruct (Huniq _ _ _ He Hd eq_refl) as [-> [= -> ->]].
                 rewrite bool_decide_eq_false_2 by assumption.
                 now rewrite Hauth.
           ++ intros x. split.
              ** intros H. split; trivial.
                 exists childPid, pre, code, now, rest.
                 repeat split; trivial.
                 --- case_bool_decide; [now left|right].
                     destruct (checkForAuthError (stderrLines pre));
                       [discriminate | reflexivity].
                 --- case_bool_decide; [now injection H|].
                     destruct (checkForAuthError (stderrLines pre));
                       [discriminate | now injection H].
              ** intros [_ (p & pre' & k & t & rest' & Hp & He & Hd & Hk & ->)].
                 destruct (Huniq _ _ _ He Hd eq_refl) as [-> [= -> ->]].
                 assert (p = childPid) as -> by congruence.
                 destruct Hk as [->|Hauth]; [reflexivity|].
                 rewrite Hauth. now case_bool_decide.
        -- (* error *)
           simpl. split.
           ++ intros e. split.
              ** intros [= <-]. right. split; trivial. right.
                 exists childPid, pre, (ProcessError msg now), rest.
                 repeat split; trivial. right; left. now exists msg, now.
              ** intros [Hv|[_ [(m & t0 & Hm & _)|(p & pre' & ev' & rest' & _ & He & Hd & Hk)]]];
                   [now apply Hnv in Hv | congruence |].
                 destruct Hk as [[-> _]|[(m & t & -> & ->)|(k & t & -> & _)]];
                   try (destruct (Huniq _ _ _ He Hd eq_refl) as [_ [=]]; fail).
                 destruct (Huniq _ _ _ He Hd eq_refl) as [_ [= -> _]].
                 reflexivity.
           ++ intros x. split; [discriminate|].
              intros [_ (p & pre' & code & t & rest' & _ & He & Hd & _)].
              destruct (Huniq _ _ _ He Hd eq_refl) as [_ [=]].
  - (* a pre-condition fails *)
    destruct (executeCommand_violation w c Hpre) as (e0 & He0 & Hv0).
    rewrite He0. split.
    + intros e. split.
      * intros [= <-]. now left.
      * intros [Hv|[[=] _]]. f_equal.
        unfold preconditionViolation in *.
        destruct Hv0 as [[H0 ->]|[(H0 & H1 & ->)|(H0 & H1 & d0 & Hd0 & Ht0 & Hx0 & ->)]];
        destruct Hv as [[G0 ->]|[(G0 & G1 & ->)|(G0 & G1 & d & Hd & Ht & Hx & ->)]];
          try congruence.
    + intros x. split; [discriminate | intros [[=] _]].
Qed.

(** C1, counterexample.  With every pre-condition satisfied, a command
    that runs into its timeout of 10 ms makes [executeCommand] throw: the
    failure is not captured in a returned record. *)
Lemma timeout_thrown_to_caller :
  (executeCommand Samples.timeoutWorld Samples.projectsList).1
  = Throws (timeoutError 10) /\
  ~ preconditionViolation Samples.timeoutWorld Samples.projectsList
      (timeoutError 10).
Proof.
  split; [reflexivity|].
  intros [[H _]|[(_ & H & _)|(_ & _ & d & H & _)]]; discriminate.
Qed.

(** C2, counterexample.  The timer of a 10 ms timeout fires while the
    child is still running: the execution is marked [Failed], not
    [Cancelled], its [cancelled] flag stays false, and the caller gets
    the timeout error instead of a record. *)
Lemma timeout_marks_failed :
  status (execution (runCommand Samples.timeoutWorld
                       (newExecution Samples.timeoutWorld Samples.projectsList)))
  = Failed /\
  status (execution (runCommand Samples.timeoutWorld
                       (newExecution Samples.timeoutWorld Samples.projectsList)))
  <> Cancelled /\
  cancelled (execution (runCommand Samples.timeoutWorld
                          (newExecution Samples.timeoutWorld Samples.projectsList)))
  = false /\
  (executeCommand Samples.timeoutWorld Samples.projectsList).1
  = Throws (timeoutError 10).
Proof. repeat split; discriminate. Qed.

(** C2 (as the code has it).  When the timer fires before the child has
    closed, the callback sends SIGTERM to the child (when it has a pid),
    sets the status to [Failed] and leaves the [cancelled] flag false,
    and rejects the promise with the error
    [Command timed out after <timeout>ms]; whatever happens afterwards,
    the caller of [executeCommand] receives that error and no execution
    record (hence no [Completed] one). *)
Theorem timeout_fails_the_run (w : World) (c : GCloudCommand)
    (childPid : option Z) (pre rest : list ChildEvent) :
  preconditionsHold w c = true ->
  spawnResult w = Spawned childPid ->
  events w = pre ++ TimerFires :: rest ->
  forallb isData pre = true ->
  let ms := effectiveTimeout (config w) c in
  let rs := deliverAll ms (started w (newExecution w c) childPid)
                       (pre ++ [TimerFires]) in
  status (execution rs) = Failed /\
  cancelled (execution rs) = false /\
  promise rs = Rejected (timeoutError ms) /\
  effects rs = EffSpawn (commandRequest w c) :: killProcess childPid /\
  (executeCommand w c).1 = Throws (timeoutError ms).
Proof.
  intros Hpre Hsp Hev Hdata ms rs.
  assert (Hrs : rs = onTimeout ms (afterData (started w (newExecution w c) childPid) pre)).
  { unfold rs. rewrite deliverAll_app, (deliverAll_data ms pre) by assumption.
    reflexivity. }
  rewrite Hrs. repeat split.
  rewrite (executeCommand_runs w c Hpre).
  rewrite (runCommand_decided w c childPid pre TimerFires rest Hsp Hev Hdata eq_refl).
  reflexivity.
Qed.

Lemma timeout_fails_the_run_witness :
  preconditionsHold Samples.slowWorld Samples.projectsList = true /\
  (executeCommand Samples.slowWorld Samples.projectsList).1
  = Throws (timeoutError 10).
Proof.
  split; [reflexivity|].
  refine (proj2 (proj2 (proj2 (proj2
            (timeout_fails_the_run Samples.slowWorld Samples.projectsList
               (Some 4242) [StdoutData "listing"] [Close None 1100]
               _ _ _ _)))));
    reflexivity.
Defined.

(** C3, counterexample.  The command exits with code 1 and an ordinary
    message on stderr: the execution is [Failed], and no error object is
    produced for it; the record itself is what the caller gets. *)
Lemma failed_without_error_object :
  (executeCommand Samples.plainFailureWorld Samples.projectsList).1
  = Returns (closedExecution Samples.plainFailureWorld Samples.projectsList
               (Some 4242) [StderrData "ERROR: (gcloud.projects.list) boom"]
               (Some 1) 1500) /\
  status (closedExecution Samples.plainFailureWorld Samples.projectsList
            (Some 4242) [StderrData "ERROR: (gcloud.projects.list) boom"]
            (Some 1) 1500) = Failed /\
  producedError
    (executeCommand Samples.plainFailureWorld Samples.projectsList).1 = None.
Proof. repeat split. Qed.

Lemma checkForAuthError_spec (l : list string) :
  checkForAuthError l = true <->
  exists line pattern,
    In line l /\ In pattern authErrorPatterns /\
    Js.includes (Js.toLowerCase line) pattern = true.
Proof.
  unfold checkForAuthError. rewrite existsb_exists. split.
  - intros (line & Hl & H). apply existsb_exists in H as (pattern & Hp & H).
    now exists line, pattern.
  - intros (line & pattern & Hl & Hp & H). exists line. split; trivial.
    apply existsb_exists. now exists pattern.
Qed.

(** C3 (as the code has it).  For a run that ends with the timer or with
    a ['close'] whose code is not 0: the timer yields the error
    [Command timed out after <timeout>ms]; a ['close'] whose stderr
    lines contain, case-insensitively, one of the seven authentication
    markers yields the error [Authentication required] carrying the
    exit code, the stderr lines, [authenticationRequired = true] and the
    two login commands as suggestions; any other ['close'] yields no
    error object at all: the execution record is returned with status
    [Failed] and the stderr lines in it. *)
Theorem failure_classification (w : World) (c : GCloudCommand)
    (childPid : option Z) (pre : list ChildEvent) (ev : ChildEvent)
    (rest : list ChildEvent) :
  preconditionsHold w c = true ->
  spawnResult w = Spawned childPid ->
  events w = pre ++ ev :: rest ->
  forallb isData pre = true ->
  (ev = TimerFires ->
   producedError (executeCommand w c).1
   = Some (timeoutError (effectiveTimeout (config w) c))) /\
  (forall code now,
      ev = Close code now -> code <> Some 0 ->
      (checkForAuthError (stderrLines pre) = true <->
       exists line pattern,
         In line (stderrLines pre) /\ In pattern authErrorPatterns /\
         Js.includes (Js.toLowerCase line) pattern = true) /\
      (checkForAuthError (stderrLines pre) = true ->
       producedError (executeCommand w c).1
       = Some {| message := "Authentication required";
                 errExitCode := code;
                 errStderr := Some (stderrLines pre);
                 authenticationRequired := Some true;
                 suggestions := Some loginSuggestions |} /\
       length loginSuggestions = 2%nat) /\
      (checkForAuthError (stderrLines pre) = false ->
       producedError (executeCommand w c).1 = None /\
       exists x, (executeCommand w c).1 = Returns x /\
                 status x = Failed /\ stderr x = stderrLines pre)).
Proof.
  intros Hpre Hsp Hev Hdata.
  rewrite (executeCommand_runs w c Hpre). split.
  - intros ->.
    now rewrite (runCommand_decided w c childPid pre TimerFires rest Hsp Hev Hdata eq_refl).
  - intros code now -> Hcode.
    rewrite (runCommand_decided w c childPid pre _ rest Hsp Hev Hdata eq_refl).
    rewrite close_decides, bool_decide_eq_false_2 by assumption.
    split; [apply checkForAuthError_spec|].
    split; intros ->; simpl; [now split|].
    split; [reflexivity|]. eexists. split; [reflexivity|].
    split; [|reflexivity].
    simpl. destruct code as [[| |]|]; congruence.
Qed.

Lemma failure_classification_witness :
  preconditionsHold Samples.authFailureWorld Samples.projectsList = true /\
  producedError (executeCommand Samples.authFailureWorld Samples.projectsList).1
  = Some (authenticationError (Some 1) ["ERROR: You are Not Authenticated"]).
Proof.
  split; [reflexivity|].
  refine (proj1 (proj1 (proj2 (proj2
            (failure_classification Samples.authFailureWorld
               Samples.projectsList (Some 4242)
               [StderrData "ERROR: You are Not Authenticated"]
               (Close (Some 1) 1500) [] _ _ _ _)
            (Some 1) 1500 eq_refl _)) _));
    try reflexivity.
  discriminate.
Defined.

(** Handlers never add a spawn: the spawns recorded by a run are those
    present at its start. *)
Lemma deliver_spawns ms rs ev r :
  In (EffSpawn r) (effects (deliver ms rs ev)) -> In (EffSpawn r) (effects rs).
Proof.
  destruct ev as [chunk|chunk| |code now|msg now]; simpl; trivial.
  - destruct (timerArmed rs); simpl; trivial.
    rewrite in_app_iff. intros [H|H]; trivial.
    unfold killProcess in H. destruct (pid _) as [p|]; [|destruct H].
    destruct (p =? 0); simpl in H; [destruct H|].
    destruct H as [H|[]]. discriminate.
  - unfold onClose. destruct (cancelled _); simpl; trivial.
    destruct code as [[| |]|]; simpl; trivial;
      destruct (checkForAuthError _); simpl; trivial.
Qed.

Lemma deliverAll_spawns ms evs r : forall rs,
  In (EffSpawn r) (effects (deliverAll ms rs evs)) -> In (EffSpawn r) (effects rs).
Proof.
  induction evs as [|ev evs IH]; intros rs; simpl; trivial.
  intros H. apply IH in H. now apply deliver_spawns in H.
Qed.

Lemma runCommand_spawns w e r :
  In (EffSpawn r) (effects (runCommand w e)) -> r = commandRequest w (cmd e).
Proof.
  unfold runCommand. destruct (spawnResult w) as [msg now|childPid].
  - simpl. intros [[= <-]|[]]. reflexivity.
  - intros H. apply deliverAll_spawns in H. simpl in H.
    destruct H as [[= <-]|[]]. reflexivity.
Qed.

(** C4, counterexample.  The command string [gcloud version;id] is
    spawned with the [shell] option: what runs is [/bin/sh -c] on the
    single string [gcloud version;id], in which the shell reads the
    semicolon as its own operator. *)
Lemma command_goes_through_shell :
  In (EffSpawn (commandRequest (Samples.world []) Samples.chainedCommand))
     (executeCommand (Samples.world []) Samples.chainedCommand).2 /\
  shellInterpreted (commandRequest (Samples.world []) Samples.chainedCommand) /\
  spawnedArgv (commandRequest (Samples.world []) Samples.chainedCommand)
  = ["/bin/sh"; "-c"; "gcloud version;id"].
Proof.
  split; [|split; reflexivity].
  simpl. right. now left.
Qed.

(** C4 (as the code has it).  [executeCommand] spawns two requests at
    most, the version probe and the command.  Both name the file
    [gcloud], pass their arguments as a list (for the command: the
    pieces of the command string between white space, in order, with
    the format flag when it is added) and set the [shell] option, so
    that the file and the list are joined by spaces into one command
    string that [/bin/sh -c] interprets. *)
Theorem spawn_uses_shell (w : World) (c : GCloudCommand) (r : SpawnRequest) :
  In (EffSpawn r) (executeCommand w c).2 ->
  (r = versionRequest \/
   r = commandRequest w c /\ spArgs r = spawnArgs (config w) c) /\
  spFile r = "gcloud" /\
  shellInterpreted r /\
  spawnedArgv r = ["/bin/sh"; "-c"; Js.join " " ("gcloud" :: spArgs r)].
Proof.
  intros H.
  assert (Hr : r = versionRequest \/ r = commandRequest w c).
  { unfold executeCommand in H.
    destruct (negb (Js.startsWith (command c) "gcloud ")); [destruct H|].
    destruct (negb (isGCloudAvailable (versionProbe w))).
    { destruct H as [[= <-]|[]]. now left. }
    unfold directoryMissing in H.
    assert (Hrun : In (EffSpawn r) (effects (runCommand w (newExecution w c))) ->
                   r = commandRequest w c)
      by apply runCommand_spawns.
    destruct (workingDirectory c) as [d|]; [destruct (Js.truthy d)|];
      [destruct (existsSync w d)| |]; simpl in H;
      repeat match goal with
        | H : _ \/ _ |- _ => destruct H as [H|H]
        | H : EffSpawn _ = EffSpawn _ |- _ => injection H as <-
        | H : EffExistsSync _ = EffSpawn _ |- _ => discriminate H
        | H : False |- _ => destruct H
        end; auto. }
  destruct Hr as [->| ->]; repeat split; auto.
Qed.

Lemma spawn_uses_shell_witness :
  In (EffSpawn (commandRequest (Samples.world []) Samples.projectsList))
     (executeCommand (Samples.world []) Samples.projectsList).2 /\
  spawnedArgv (commandRequest (Samples.world []) Samples.projectsList)
  = ["/bin/sh"; "-c";
     Js.join " " ("gcloud"
                  :: spArgs (commandRequest (Samples.world [])
                               Samples.projectsList))].
Proof.
  assert (H : In (EffSpawn (commandRequest (Samples.world []) Samples.projectsList))
                 (executeCommand (Samples.world []) Samples.projectsList).2)
    by (simpl; right; now left).
  split; [exact H|].
  exact (proj2 (proj2 (proj2
           (spawn_uses_shell (Samples.world []) Samples.projectsList _ H)))).
Defined.

(** C5, counterexample.  The command supports JSON and has no format
    flag, but the configuration does not prefer JSON output: no format
    request is appended. *)
Lemma no_format_without_preference :
  supportsJson Samples.projectsList = true /\
  hasFormatFlag (args Samples.projectsList) = false /\
  hasFormatFlag (parseArgs Samples.projectsList) = false /\
  spawnArgs Samples.plainConfig Samples.projectsList = ["projects"; "list"] /\
  countFormatFlags (spawnArgs Samples.plainConfig Samples.projectsList) = 0%nat.
Proof. repeat split. Qed.

Lemma hasFormatFlag_pushed (l : list string) :
  hasFormatFlag (l ++ ["--format=json"]) = true.
Proof.
  unfold hasFormatFlag. rewrite existsb_app. simpl.
  apply orb_true_iff. right. reflexivity.
Qed.

Lemma countFormatFlags_none (l : list string) :
  hasFormatFlag l = false -> countFormatFlags l = 0%nat.
Proof.
  unfold hasFormatFlag, countFormatFlags.
  induction l as [|a l IH]; simpl; trivial.
  intros H. apply orb_false_iff in H as [Ha Hl]. rewrite Ha. auto.
Qed.

(** C5 (as the code has it).  The format request is appended under the
    condition [supportsJson && (config.preferJsonOutput ||
    command.args.includes('--format=json'))]: when it holds and no
    argument parsed from the command string starts with [--format=],
    exactly one [--format=json] is appended at the end, and the list
    then holds exactly one format request; in every other case the
    parsed list is passed unchanged.  The step is idempotent: applied
    to its own result it adds nothing. *)
Theorem format_injection (cfg : GCloudConfig) (c : GCloudCommand) :
  (jsonRequested cfg c = true -> hasFormatFlag (parseArgs c) = false ->
   spawnArgs cfg c = parseArgs c ++ ["--format=json"] /\
   countFormatFlags (spawnArgs cfg c) = 1%nat) /\
  (jsonRequested cfg c = false \/ hasFormatFlag (parseArgs c) = true ->
   spawnArgs cfg c = parseArgs c) /\
  applyJsonFormat (jsonRequested cfg c) (spawnArgs cfg c) = spawnArgs cfg c.
Proof.
  unfold spawnArgs, applyJsonFormat. repeat split.
  - now rewrite H, H0.
  - rewrite H, H0. simpl. unfold countFormatFlags.
    rewrite List.filter_app, length_app.
    fold (countFormatFlags (parseArgs c)).
    now rewrite countFormatFlags_none.
  - intros [-> | ->]; [reflexivity|]. now destruct (jsonRequested cfg c).
  - destruct (jsonRequested cfg c); [|reflexivity].
    destruct (hasFormatFlag (parseArgs c)) eqn:Hf; simpl.
    + now rewrite Hf.
    + now rewrite hasFormatFlag_pushed.
Qed.

Lemma format_injection_witness :
  jsonRequested Samples.jsonConfig Samples.projectsList = true /\
  hasFormatFlag (parseArgs Samples.projectsList) = false /\
  spawnArgs Samples.jsonConfig Samples.projectsList
  = ["projects"; "list"; "--format=json"].
Proof.
  split; [reflexivity|]. split; [reflexivity|].
  exact (proj1 (proj1 (format_injection Samples.jsonConfig Samples.projectsList)
                  eq_refl eq_refl)).
Defined.

Lemma cancelExecution_not_running kill now e :
  status e <> Running -> cancelExecution kill now e = (false, e, []).
Proof.
  intros H. unfold cancelExecution.
  destruct (pid e) as [p|]; [|reflexivity].
  now rewrite bool_decide_eq_false_2.
Qed.

(** C7.  On an execution in a terminal state ([Completed], [Failed] or
    [Cancelled]) [cancelExecution] returns [false] without sending a
    signal or logging anything and leaves every field of the execution
    as it was; this holds for any number of calls in a row. *)
Theorem cancel_terminal_is_noop (kill : Z -> option string)
    (e : CommandExecution) :
  is_terminal (status e) = true ->
  (forall now, cancelExecution kill now e = (false, e, [])) /\
  (forall nows, cancelRepeatedly kill nows e = e).
Proof.
  intros Ht.
  assert (Hs : status e <> Running) by (destruct (status e); discriminate).
  split.
  - intros now. now apply cancelExecution_not_running.
  - intros nows. unfold cancelRepeatedly.
    induction nows as [|now nows IH]; simpl; trivial.
    now rewrite cancelExecution_not_running.
Qed.

Lemma cancel_terminal_is_noop_witness :
  is_terminal (status (Samples.finished Completed)) = true /\
  cancelRepeatedly (fun _ => None) [1600; 1700] (Samples.finished Completed)
  = Samples.finished Completed.
Proof.
  split; [reflexivity|].
  exact (proj2 (cancel_terminal_is_noop (fun _ => None)
                  (Samples.finished Completed) eq_refl) [1600; 1700]).
Defined.

(** C8, the code at the failing input.  The timer fires and sets the
    status to [Failed], a terminal state, and the promise is rejected;
    the ['close'] handler then runs all the same and, the exit code
    being 0, sets the status to [Completed]: the execution passes through
    two different terminal states. *)
Theorem status_reassigned_after_timeout :
  statusHistory 10
    (started Samples.lateCloseWorld
       (newExecution Samples.lateCloseWorld Samples.projectsList) (Some 4242))
    (events Samples.lateCloseWorld)
  = [Failed; Completed] /\
  status (execution (runCommand Samples.lateCloseWorld
                       (newExecution Samples.lateCloseWorld Samples.projectsList)))
  = Completed /\
  promise (runCommand Samples.lateCloseWorld
             (newExecution Samples.lateCloseWorld Samples.projectsList))
  = Rejected (timeoutError 10).
Proof. repeat split. Qed.

(** C10.  When the ['close'] event reports a null exit code and the
    execution is not flagged as cancelled, the handler records
    [exitCode = 0] and the status [Failed]; and a caller does receive
    such a record (exit code 0, not [Completed]) from [executeCommand]
    for a child ended by a signal. *)
Theorem null_exit_code_recorded_as_zero (rs : RunState) (now : Z) :
  cancelled (execution rs) = false ->
  exitCode (execution (onClose None now rs)) = Some 0 /\
  status (execution (onClose None now rs)) = Failed /\
  exists x,
    (executeCommand Samples.signalledWorld Samples.projectsList).1 = Returns x /\
    exitCode x = Some 0 /\ status x = Failed /\ status x <> Completed.
Proof.
  intros Hc. unfold onClose. simpl. rewrite Hc.
  destruct (checkForAuthError _); simpl; repeat split; trivial;
    (eexists; split; [reflexivity|]; repeat split; discriminate).
Qed.

Lemma null_exit_code_recorded_as_zero_witness :
  cancelled (execution (started Samples.signalledWorld
               (newExecution Samples.signalledWorld Samples.projectsList)
               (Some 4242))) = false /\
  exitCode (execution (onClose None 1500
              (started Samples.signalledWorld
                 (newExecution Samples.signalledWorld Samples.projectsList)
                 (Some 4242)))) = Some 0.
Proof.
  split; [reflexivity|].
  exact (proj1 (null_exit_code_recorded_as_zero
                  (started Samples.signalledWorld
                     (newExecution Samples.signalledWorld Samples.projectsList)
                     (Some 4242))
                  1500 eq_refl)).
Defined.

Import AuthProbe.

(** C6, counterexample.  The credential list is read and parsed, then
    the project command fails with exit code 1: the probe does not
    degrade to the not-authenticated snapshot, it reports the account
    with the default project left undefined. *)
Lemma probe_partial_snapshot :
  (exists y,
      (executeCommand Samples.projectFailsWorld projectCommand).1 = Returns y /\
      status y = Failed) /\
  (getAuthenticationStatus Samples.parseSample Samples.accountsWorld
     Samples.projectFailsWorld 2000).1
  = Returns {| isAuthenticated := true;
               activeAccount := Some (JString "dev@example.com");
               availableAccounts := [Some (JString "dev@example.com")];
               defaultProject := None;
               lastChecked := 2000 |} /\
  (getAuthenticationStatus Samples.parseSample Samples.accountsWorld
     Samples.projectFailsWorld 2000).1
  <> Returns (notAuthenticated 2000).
Proof.
  split; [eexists; split; reflexivity|].
  split; [reflexivity | discriminate].
Qed.

(** C6 (as the code has it).  The probe never throws.  It returns the
    not-authenticated snapshot (no account, empty list) when the first
    command throws, does not complete, or prints something that does
    not parse, and when the second command throws.  When the second
    command returns without completing, or its output does not parse,
    the probe still reports the accounts read by the first command, with
    the default project undefined. *)
Theorem probe_outcomes (parse : string -> option Json) (w1 w2 : World)
    (now : Z) :
  (forall e, (getAuthenticationStatus parse w1 w2 now).1 <> Throws e) /\
  (forall e,
      (executeCommand w1 authListCommand).1 = Throws e ->
      (getAuthenticationStatus parse w1 w2 now).1
      = Returns (notAuthenticated now)) /\
  (forall x,
      (executeCommand w1 authListCommand).1 = Returns x ->
      status x <> Completed \/ parse (Js.join "" (stdout x)) = None ->
      (getAuthenticationStatus parse w1 w2 now).1
      = Returns (notAuthenticated now)) /\
  (forall x items e,
      (executeCommand w1 authListCommand).1 = Returns x ->
      status x = Completed ->
      parse (Js.join "" (stdout x)) = Some (JArray items) ->
      (executeCommand w2 projectCommand).1 = Throws e ->
      (getAuthenticationStatus parse w1 w2 now).1
      = Returns (notAuthenticated now)) /\
  (forall x items active accounts y,
      (executeCommand w1 authListCommand).1 = Returns x ->
      status x = Completed ->
      parse (Js.join "" (stdout x)) = Some (JArray items) ->
      activeAccountOf items = Some active ->
      accountsOf items = Some accounts ->
      (executeCommand w2 projectCommand).1 = Returns y ->
      status y <> Completed \/ parse (Js.join "" (stdout y)) = None ->
      (getAuthenticationStatus parse w1 w2 now).1
      = Returns {| isAuthenticated := (0 <? length items)%nat;
                   activeAccount := active;
                   availableAccounts := accounts;
                   defaultProject := None;
                   lastChecked := now |}).
Proof.
  unfold getAuthenticationStatus.
  destruct (executeCommand w1 authListCommand) as [[x|e1|] effs]; simpl.
  - destruct (bool_decide (status x = Completed)) eqn:Hst; simpl.
    + apply bool_decide_eq_true in Hst.
      destruct (parse (Js.join "" (stdout x))) as [v|] eqn:Hparse.
      * destruct v as [ |b|n|s|items|fields]; simpl;
          try (repeat split; intros; try discriminate; try congruence;
               match goal with H : _ \/ _ |- _ => destruct H; congruence end).
        destruct (activeAccountOf items) as [active|] eqn:Hact; simpl.
        -- destruct (executeCommand w2 projectCommand) as [[y|e2|] effs2];
             simpl.
           ++ destruct (accountsOf items) as [accounts|] eqn:Hacc; simpl.
              ** repeat split; intros; try discriminate; try congruence.
                 { match goal with H : _ \/ _ |- _ => destruct H; congruence end. }
                 repeat match goal with
                   | H : Returns _ = Returns _ |- _ => injection H as <-
                   | H : Some _ = Some _ |- _ => injection H as <-
                   end.
                 assert (items0 = items) as -> by congruence.
                 assert (active0 = active) as -> by congruence.
                 assert (accounts0 = accounts) as -> by congruence.
                 do 2 f_equal. unfold defaultProjectOf.
                 match goal with H : _ \/ _ |- _ => destruct H as [Hy|Hy] end.
                 --- now rewrite bool_decide_eq_false_2.
                 --- rewrite Hy. now case_bool_decide.
              ** repeat split; intros; try discriminate; try congruence.
           ++ repeat split; intros; try discriminate; try congruence.
           ++ repeat split; intros; try discriminate; try congruence.
              match goal with H : _ \/ _ |- _ => destruct H; congruence end.
        -- repeat split; intros; try discriminate; try congruence.
      * repeat split; intros; try discriminate; try congruence.
    + apply bool_decide_eq_false in Hst.
      repeat split; intros; try discriminate; try congruence.
  - repeat split; intros; try discriminate; try congruence.
  - repeat split; intros; try discriminate; try congruence.
Qed.

Lemma probe_outcomes_witness :
  (executeCommand Samples.timeoutWorld authListCommand).1
  = Throws (timeoutError 300000) /\
  (getAuthenticationStatus Samples.parseSample Samples.timeoutWorld
     Samples.accountsWorld 2000).1
  = Returns (notAuthenticated 2000).
Proof.
  split; [reflexivity|].
  exact (proj1 (proj2 (probe_outcomes Samples.parseSample Samples.timeoutWorld
                         Samples.accountsWorld 2000))
           (timeoutError 300000) eq_refl).
Defined.

(** ** Further properties: the facade and the argument list *)

Lemma startsWith_prefixed (s : string) :
  Js.startsWith ("gcloud " +:+ s) "gcloud " = true.
Proof. unfold Js.startsWith. simpl. now destruct s. Qed.

Lemma fullCommand_prefix (s : string) :
  Js.startsWith (GCloudOperations.fullCommand s) "gcloud " = true.
Proof.
  unfold GCloudOperations.fullCommand.
  destruct (Js.startsWith s "gcloud ") eqn:H; [exact H|].
  apply startsWith_prefixed.
Qed.

(** X1.  A command built by [prepareCommand] always passes the prefix
    check of the client: whatever the input, the call reaches the
    availability check, so its effects start with the spawn of
    [gcloud version]. *)
Theorem prepared_command_passes_guard (input : GCloudInput.t) (w : World) :
  Js.startsWith (command (GCloudOperations.prepareCommand input)) "gcloud "
  = true /\
  exists effs,
    (executeCommand w (GCloudOperations.prepareCommand input)).2
    = EffSpawn versionRequest :: effs.
Proof.
  split; [apply fullCommand_prefix|].
  unfold executeCommand.
  replace (Js.startsWith (command (GCloudOperations.prepareCommand input)) "gcloud ")
    with true by (symmetry; apply fullCommand_prefix).
  simpl negb. cbv iota.
  destruct (negb (isGCloudAvailable (versionProbe w))); [now eexists|].
  destruct (directoryMissing w _) as [[d|] effs]; now eexists.
Qed.

Lemma json_argument_is_format_flag (l : list string) :
  existsb (String.eqb "--format=json") l = true -> hasFormatFlag l = true.
Proof.
  unfold hasFormatFlag. rewrite !existsb_exists.
  intros (a & Ha & Heq). apply String.eqb_eq in Heq. subst a.
  exists "--format=json". split; [assumption | reflexivity].
Qed.

(** X2.  For a command built by [prepareCommand] the format flag is
    appended exactly when the first word is not one of the eleven
    commands without JSON support, the configuration prefers JSON
    output, and no typed argument starts with [--format=]; otherwise
    the spawned arguments are the typed ones.  The [format] field of the
    input plays no part. *)
Theorem prepared_command_arguments (cfg : GCloudConfig)
    (input : GCloudInput.t) (f : GCloudInput.Format) :
  spawnArgs cfg (GCloudOperations.prepareCommand input)
  = (if GCloudOperations.detectJsonSupport
          (args (GCloudOperations.prepareCommand input))
        && preferJsonOutput cfg
        && negb (hasFormatFlag (args (GCloudOperations.prepareCommand input)))
     then args (GCloudOperations.prepareCommand input) ++ ["--format=json"]
     else args (GCloudOperations.prepareCommand input)) /\
  spawnArgs cfg (GCloudOperations.prepareCommand (More.withFormat f input))
  = spawnArgs cfg (GCloudOperations.prepareCommand input).
Proof.
  split; [|reflexivity].
  unfold spawnArgs, applyJsonFormat, jsonRequested.
  change (parseArgs (GCloudOperations.prepareCommand input))
    with (args (GCloudOperations.prepareCommand input)).
  change (supportsJson (GCloudOperations.prepareCommand input))
    with (GCloudOperations.detectJsonSupport
            (args (GCloudOperations.prepareCommand input))).
  set (l := args (GCloudOperations.prepareCommand input)).
  destruct (GCloudOperations.detectJsonSupport l); [|reflexivity].
  destruct (preferJsonOutput cfg); cbn [andb orb]; [reflexivity|].
  destruct (existsb (String.eqb "--format=json") l) eqn:Hin; [|reflexivity].
  now rewrite (json_argument_is_format_flag l Hin).
Qed.

(** The record that [executeCommand] returns is the one left by the
    ['close'] handler after output only. *)
Lemma returned_shape (w : World) (c : GCloudCommand) (x : CommandExecution) :
  (executeCommand w c).1 = Returns x ->
  exists childPid pre code now,
    x = closedExecution w c childPid pre code now /\
    (code = Some 0 \/ checkForAuthError (stderrLines pre) = false).
Proof.
  destruct (preconditionsHold w c) eqn:Hpre.
  - rewrite (executeCommand_runs w c Hpre).
    destruct (spawnResult w) as [msg tm|childPid] eqn:Hsp.
    + unfold runCommand. rewrite Hsp. discriminate.
    + destruct (first_other_event (events w))
        as [Hall|(pre & ev & rest & Hev & Hdata & Hother)].
      * rewrite (runCommand_pending w c childPid Hsp Hall). discriminate.
      * rewrite (runCommand_decided w c childPid pre ev rest Hsp Hev Hdata Hother).
        destruct ev as [chunk|chunk| |code now|msg now]; try discriminate.
        rewrite close_decides. intros H.
        exists childPid, pre, code, now.
        case_bool_decide.
        -- injection H as <-. auto.
        -- destruct (checkForAuthError (stderrLines pre)); [discriminate|].
           injection H as <-. auto.
  - destruct (executeCommand_violation w c Hpre) as (e & -> & _). discriminate.
Qed.

(** An error thrown by [executeCommand] that asks for authentication is
    the one built by the ['close'] handler. *)
Lemma thrown_authentication_shape (w : World) (c : GCloudCommand)
    (e : GCloudError) :
  (executeCommand w c).1 = Throws e ->
  authenticationRequired e = Some true ->
  exists code pre,
    e = authenticationError code (stderrLines pre) /\
    checkForAuthError (stderrLines pre) = true /\ code <> Some 0.
Proof.
  destruct (preconditionsHold w c) eqn:Hpre.
  - rewrite (executeCommand_runs w c Hpre).
    destruct (spawnResult w) as [msg tm|childPid] eqn:Hsp.
    + unfold runCommand. rewrite Hsp. simpl. intros [= <-]. discriminate.
    + destruct (first_other_event (events w))
        as [Hall|(pre & ev & rest & Hev & Hdata & Hother)].
      * rewrite (runCommand_pending w c childPid Hsp Hall). discriminate.
      * rewrite (runCommand_decided w c childPid pre ev rest Hsp Hev Hdata Hother).
        destruct ev as [chunk|chunk| |code now|msg now]; try discriminate.
        -- simpl. intros [= <-]. discriminate.
        -- rewrite close_decides. case_bool_decide; [discriminate|].
           destruct (checkForAuthError (stderrLines pre)) eqn:Hauth;
             [|discriminate].
           intros [= <-] _. now exists code, pre.
        -- simpl. intros [= <-]. discriminate.
  - destruct (executeCommand_violation w c Hpre) as (e0 & -> & Hv).
    intros [= <-].
    destruct Hv as [[_ ->]|[(_ & _ & ->)|(_ & _ & d & _ & _ & _ & ->)]];
      discriminate.
Qed.

(** X3.  The facade's [executeCommand] never throws: the errors of the
    client come back as results.  Every result echoes the command as
    the caller typed it (without the added prefix), and no result ever
    reports [cancelled = true]. *)
Theorem facade_never_throws (parse : string -> option Json)
    (probe : VersionProbe) (w : World) (startMs endMs : Z)
    (input : GCloudInput.t) :
  (forall e,
      (GCloudOperations.executeCommand parse probe w startMs endMs input).1
      <> Throws e) /\
  (forall r,
      (GCloudOperations.executeCommand parse probe w startMs endMs input).1
      = Returns r ->
      GCloudToolOutput.command r = GCloudInput.command input /\
      GCloudToolOutput.cancelled r <> Some true).
Proof.
  unfold GCloudOperations.executeCommand.
  destruct (negb (isGCloudAvailable probe)).
  - split; [discriminate|]. intros r [= <-]. split; [reflexivity|discriminate].
  - destruct (executeCommand w (GCloudOperations.prepareCommand input))
      as [[x|e0|] effs] eqn:Hx; simpl;
      (split; [discriminate|]); intros r [= <-]; simpl;
      (split; [reflexivity|]); try discriminate.
    assert (Hr : (executeCommand w (GCloudOperations.prepareCommand input)).1
                 = Returns x) by now rewrite Hx.
    destruct (returned_shape _ _ _ Hr) as (p & pre & code & now & -> & _).
    discriminate.
Qed.

(** X4.  A result of the facade with [success = true] comes from an
    available SDK and a child that exited with code 0: it carries
    [exitCode = 0], [cancelled = false], no error, no authentication
    request, and the elapsed time between the two clock readings. *)
Theorem facade_success (parse : string -> option Json)
    (probe : VersionProbe) (w : World) (startMs endMs : Z)
    (input : GCloudInput.t) (r : GCloudToolOutput.t) :
  (GCloudOperations.executeCommand parse probe w startMs endMs input).1
  = Returns r ->
  GCloudToolOutput.success r = true ->
  isGCloudAvailable probe = true /\
  GCloudToolOutput.exitCode r = Some 0 /\
  GCloudToolOutput.cancelled r = Some false /\
  GCloudToolOutput.error r = None /\
  GCloudToolOutput.authenticationRequired r = None /\
  GCloudToolOutput.executionTime r = Some (endMs - startMs).
Proof.
  unfold GCloudOperations.executeCommand.
  destruct (isGCloudAvailable probe); simpl; [|intros [= <-]; discriminate].
  destruct (executeCommand w (GCloudOperations.prepareCommand input))
    as [[x|e0|] effs] eqn:Hx; simpl; try discriminate.
  - intros [= <-]. simpl. intros Hs. apply bool_decide_eq_true in Hs.
    assert (Hr : (executeCommand w (GCloudOperations.prepareCommand input)).1
                 = Returns x) by now rewrite Hx.
    destruct (returned_shape _ _ _ Hr) as (p & pre & code & now & -> & _).
    simpl in *. destruct code as [[| |]|]; try discriminate.
    repeat split.
  - intros [= <-]. discriminate.
Qed.

Lemma facade_success_witness :
  (GCloudOperations.executeCommand Samples.parseSample (ProbeExit (Some 0))
     Samples.accountsWorld 5000 5200 (More.input "auth list")).1
  = Returns More.accountsResult /\
  GCloudToolOutput.success More.accountsResult = true /\
  GCloudToolOutput.exitCode More.accountsResult = Some 0.
Proof.
  split; [reflexivity|]. split; [reflexivity|].
  exact (proj1 (proj2
           (facade_success Samples.parseSample (ProbeExit (Some 0))
              Samples.accountsWorld 5000 5200 (More.input "auth list")
              More.accountsResult eq_refl eq_refl))).
Defined.

(** X5.  A result of the facade that asks for authentication is a
    failure that carries the message [Authentication required], the two
    login commands as suggestions, and stderr lines of which one holds
    an authentication marker; its exit code is not 0. *)
Theorem facade_authentication_result (parse : string -> option Json)
    (probe : VersionProbe) (w : World) (startMs endMs : Z)
    (input : GCloudInput.t) (r : GCloudToolOutput.t) :
  (GCloudOperations.executeCommand parse probe w startMs endMs input).1
  = Returns r ->
  GCloudToolOutput.authenticationRequired r = Some true ->
  GCloudToolOutput.success r = false /\
  GCloudToolOutput.error r = Some "Authentication required" /\
  GCloudToolOutput.suggestions r = Some loginSuggestions /\
  GCloudToolOutput.exitCode r <> Some 0 /\
  exists lines,
    GCloudToolOutput.stderr r = Some lines /\ checkForAuthError lines = true.
Proof.
  unfold GCloudOperations.executeCommand.
  destruct (isGCloudAvailable probe); simpl; [|intros [= <-]; discriminate].
  destruct (executeCommand w (GCloudOperations.prepareCommand input))
    as [[x|e0|] effs] eqn:Hx; simpl; try discriminate.
  - intros [= <-]. discriminate.
  - intros [= <-]. simpl. intros Hauth.
    assert (Hr : (executeCommand w (GCloudOperations.prepareCommand input)).1
                 = Throws e0) by now rewrite Hx.
    destruct (thrown_authentication_shape _ _ _ Hr Hauth)
      as (code & pre & -> & Hmark & Hcode).
    simpl. repeat split; trivial. now exists (stderrLines pre).
Qed.

Lemma facade_authentication_result_witness :
  (GCloudOperations.executeCommand Samples.parseSample (ProbeExit (Some 0))
     Samples.authFailureWorld 5000 5200 (More.input "projects list")).1
  = Returns (GCloudOperations.errorResult "projects list"
               (authenticationError (Some 1)
                  ["ERROR: You are Not Authenticated"])) /\
  GCloudToolOutput.suggestions
    (GCloudOperations.errorResult "projects list"
       (authenticationError (Some 1) ["ERROR: You are Not Authenticated"]))
  = Some loginSuggestions.
Proof.
  split; [reflexivity|].
  exact (proj1 (proj2 (proj2
           (facade_authentication_result Samples.parseSample
              (ProbeExit (Some 0)) Samples.authFailureWorld 5000 5200
              (More.input "projects list")
              (GCloudOperations.errorResult "projects list"
                 (authenticationError (Some 1)
                    ["ERROR: You are Not Authenticated"]))
              eq_refl eq_refl)))).
Defined.

(** X6.  [checkAuthenticationStatus] never throws.  A failure always
    carries [authenticationRequired = true], the message
    [Not authenticated with Google Cloud SDK] and the two login
    commands.  A success is reported only when the credential-list
    command completed, its output parsed to an array that is not empty,
    and the project command returned. *)
Theorem check_authentication_status (parse : string -> option Json)
    (w1 w2 : World) (now : Z) :
  (forall e,
      (GCloudOperations.checkAuthenticationStatus parse w1 w2 now).1
      <> Throws e) /\
  (forall r,
      (GCloudOperations.checkAuthenticationStatus parse w1 w2 now).1
      = Returns r ->
      (GCloudToolOutput.success r = false ->
       GCloudToolOutput.authenticationRequired r = Some true /\
       GCloudToolOutput.error r
       = Some GCloudOperations.notAuthenticatedMessage /\
       GCloudToolOutput.suggestions r = Some loginSuggestions) /\
      (GCloudToolOutput.success r = true ->
       GCloudToolOutput.authenticationRequired r = Some false /\
       GCloudToolOutput.error r = None /\
       GCloudToolOutput.suggestions r = None /\
       exists x items y,
         (executeCommand w1 AuthProbe.authListCommand).1 = Returns x /\
         status x = Completed /\
         parse (Js.join "" (stdout x)) = Some (JArray items) /\
         items <> [] /\
         (executeCommand w2 AuthProbe.projectCommand).1 = Returns y)).
Proof.
  unfold GCloudOperations.checkAuthenticationStatus,
    AuthProbe.getAuthenticationStatus.
  assert (Hno : forall t (effs : list Effect),
             let res := (Returns (GCloudOperations.statusResult
                                    (AuthProbe.notAuthenticated t)), effs) in
             (forall e, res.1 <> Throws e) /\
             (forall r, res.1 = Returns r ->
                (GCloudToolOutput.success r = false ->
                 GCloudToolOutput.authenticationRequired r = Some true /\
                 GCloudToolOutput.error r
                 = Some GCloudOperations.notAuthenticatedMessage /\
                 GCloudToolOutput.suggestions r = Some loginSuggestions) /\
                (GCloudToolOutput.success r = true ->
                 GCloudToolOutput.authenticationRequired r = Some false /\
                 GCloudToolOutput.error r = None /\
                 GCloudToolOutput.suggestions r = None /\
                 exists x items y,
                   (executeCommand w1 AuthProbe.authListCommand).1 = Returns x /\
                   status x = Completed /\
                   parse (Js.join "" (stdout x)) = Some (JArray items) /\
                   items <> [] /\
                   (executeCommand w2 AuthProbe.projectCommand).1 = Returns y))).
  { intros t effs res. split; [discriminate|].
    intros r [= <-]. split; [repeat split | discriminate]. }
  destruct (executeCommand w1 AuthProbe.authListCommand) as [[x|e1|] effs];
    simpl; [| apply (Hno now []) | split; [discriminate | intros r; discriminate]].
  destruct (bool_decide (status x = Completed)) eqn:Hst; simpl; [|apply (Hno now [])].
  apply bool_decide_eq_true in Hst.
  destruct (parse (Js.join "" (stdout x))) as [v|] eqn:Hparse; [|apply (Hno now [])].
  destruct v as [ |b|n|s|items|fields]; try apply (Hno now []).
  destruct (AuthProbe.activeAccountOf items) as [active|]; [|apply (Hno now [])].
  destruct (executeCommand w2 AuthProbe.projectCommand) as [[y|e2|] effs2];
    simpl; [| apply (Hno now []) | split; [discriminate | intros r; discriminate]].
  destruct (AuthProbe.accountsOf items) as [accounts|]; [|apply (Hno now [])].
  split; [discriminate|]. intros r [= <-]. simpl.
  destruct items as [|item items]; simpl.
  - split; [repeat split | discriminate].
  - split; [discriminate|]. intros _. repeat split.
    exists x, (item :: items), y. repeat split; trivial. discriminate.
Qed.

(** ** Further properties: cancellation *)

(** X7.  [cancelExecution] returns [true] exactly when the execution is
    [Running], has a pid other than 0, and the signal could be sent.
    It then has sent one SIGTERM to that pid and has set
    [status = Cancelled], [cancelled = true] and the end time, leaving
    the other fields alone.  When it returns [false] the execution is
    unchanged and no signal was sent. *)
Theorem cancelExecution_outcome (kill : Z -> option string) (now : Z)
    (e : CommandExecution) :
  ((cancelExecution kill now e).1.1 = true <->
   status e = Running /\
   exists p, pid e = Some p /\ p <> 0 /\ kill p = None) /\
  ((cancelExecution kill now e).1.1 = true ->
   (cancelExecution kill now e).1.2
   = set_endTime now (set_status Cancelled (set_cancelled true e)) /\
   exists p, pid e = Some p /\ (cancelExecution kill now e).2 = [EffKill p]) /\
  ((cancelExecution kill now e).1.1 = false ->
   (cancelExecution kill now e).1.2 = e /\
   More.killCount (cancelExecution kill now e).2 = 0%nat).
Proof.
  unfold cancelExecution.
  destruct (pid e) as [p|].
  - destruct (bool_decide (status e = Running)) eqn:Hst; simpl.
    + apply bool_decide_eq_true in Hst.
      destruct (p =? 0) eqn:Hp; simpl.
      * apply Z.eqb_eq in Hp. repeat split; try discriminate.
        intros (_ & q & [= <-] & Hq & _). contradiction.
      * apply Z.eqb_neq in Hp.
        destruct (kill p) as [msg|] eqn:Hk; simpl.
        -- repeat split; try discriminate.
           intros (_ & q & [= <-] & _ & Hq). congruence.
        -- repeat split; try discriminate; trivial; now exists p.
    + apply bool_decide_eq_false in Hst. repeat split; try discriminate.
      intros (H & _). contradiction.
  - simpl. repeat split; try discriminate.
    intros (_ & q & H & _). discriminate.
Qed.

Lemma cancelExecution_outcome_witness :
  status More.runningExecution = Running /\
  (cancelExecution (fun _ => None) 1600 More.runningExecution).1.1 = true.
Proof.
  split; [reflexivity|].
  apply (proj1 (cancelExecution_outcome (fun _ => None) 1600
                  More.runningExecution)).
  split; [reflexivity|]. exists 4242. repeat split. discriminate.
Defined.



(** X9.  Once [cancelExecution] has cancelled a running execution, the
    ['close'] handler keeps it [Cancelled] whatever the exit code, and
    fulfils a pending promise with the record: neither [Completed] nor
    [Failed] is assigned and no authentication error is raised, even
    with authentication markers in stderr. *)
Theorem close_after_cancel (kill : Z -> option string) (now : Z)
    (rs : RunState) (code : option Z) (closedAt : Z) :
  (cancelExecution kill now (execution rs)).1.1 = true ->
  promise rs = Unsettled ->
  status (execution (onClose code closedAt
            (More.withExecution (cancelExecution kill now (execution rs)).1.2 rs)))
  = Cancelled /\
  exitCode (execution (onClose code closedAt
              (More.withExecution (cancelExecution kill now (execution rs)).1.2 rs)))
  = Some (codeOrZero code) /\
  promise (onClose code closedAt
             (More.withExecution (cancelExecution kill now (execution rs)).1.2 rs))
  = Fulfilled
      (execution (onClose code closedAt
         (More.withExecution (cancelExecution kill now (execution rs)).1.2 rs))).
Proof.
  intros Hok Hp.
  destruct (cancelExecution_outcome kill now (execution rs)) as (_ & H & _).
  destruct (H Hok) as (-> & _).
  unfold onClose. simpl. rewrite Hp. repeat split.
Qed.

Lemma close_after_cancel_witness :
  (cancelExecution (fun _ => None) 1100
     (execution (started Samples.authFailureWorld
                   (newExecution Samples.authFailureWorld Samples.projectsList)
                   (Some 4242)))).1.1 = true /\
  status (execution (onClose (Some 1) 1500
            (More.withExecution
               (cancelExecution (fun _ => None) 1100
                  (execution (started Samples.authFailureWorld
                     (newExecution Samples.authFailureWorld Samples.projectsList)
                     (Some 4242)))).1.2
               (started Samples.authFailureWorld
                  (newExecution Samples.authFailureWorld Samples.projectsList)
                  (Some 4242)))))
  = Cancelled.
Proof.
  split; [reflexivity|].
  exact (proj1 (close_after_cancel (fun _ => None) 1100
                  (started Samples.authFailureWorld
                     (newExecution Samples.authFailureWorld Samples.projectsList)
                     (Some 4242))
                  (Some 1) 1500 eq_refl eq_refl)).
Defined.

(** X10.  Every execution that [executeCommand] returns is finished and
    was not cancelled: its status is [Completed] or [Failed] (never
    [Pending], [Running] or [Cancelled]), its [cancelled] flag is false,
    its end time and exit code are set, [Completed] goes with exit code
    0, and [Failed] with stderr free of authentication markers.  Hence
    [cancelExecution] on a returned execution always returns [false] and
    changes nothing. *)
Theorem returned_execution_is_final (w : World) (c : GCloudCommand)
    (x : CommandExecution) :
  (executeCommand w c).1 = Returns x ->
  (status x = Completed \/ status x = Failed) /\
  cancelled x = false /\
  (exists t, endTime x = Some t) /\
  (exists k, exitCode x = Some k) /\
  (status x = Completed -> exitCode x = Some 0) /\
  (status x = Failed -> checkForAuthError (stderr x) = false) /\
  id x = randomUUID w /\ cmd x = c /\ startTime x = clock w /\
  forall kill now, cancelExecution kill now x = (false, x, []).
Proof.
  intros H.
  destruct (returned_shape w c x H) as (p & pre & code & now & -> & Hcode).
  assert (Hst : status (closedExecution w c p pre code now) = Completed \/
                status (closedExecution w c p pre code now) = Failed).
  { simpl. destruct code as [[| |]|]; auto. }
  split; [exact Hst|]. split; [reflexivity|].
  split; [now exists now|]. split; [now eexists|].
  split. { simpl. destruct code as [[| |]|]; try discriminate. reflexivity. }
  split. { simpl. destruct Hcode as [->|Hc]; [discriminate | now intros _]. }
  repeat split. intros kill t. apply cancelExecution_not_running.
  destruct Hst as [-> | ->]; discriminate.
Qed.

Lemma returned_execution_is_final_witness :
  (executeCommand Samples.plainFailureWorld Samples.projectsList).1
  = Returns (closedExecution Samples.plainFailureWorld Samples.projectsList
               (Some 4242) [StderrData "ERROR: (gcloud.projects.list) boom"]
               (Some 1) 1500) /\
  cancelled (closedExecution Samples.plainFailureWorld Samples.projectsList
               (Some 4242) [StderrData "ERROR: (gcloud.projects.list) boom"]
               (Some 1) 1500) = false.
Proof.
  split; [reflexivity|].
  exact (proj1 (proj2
           (returned_execution_is_final Samples.plainFailureWorld
              Samples.projectsList _ eq_refl))).
Defined.

(** ** Further properties: invariants of a run *)

Lemma deliver_frame ms rs ev :
  id (execution (deliver ms rs ev)) = id (execution rs) /\
  cmd (execution (deliver ms rs ev)) = cmd (execution rs) /\
  startTime (execution (deliver ms rs ev)) = startTime (execution rs) /\
  pid (execution (deliver ms rs ev)) = pid (execution rs) /\
  cancelled (execution (deliver ms rs ev)) = cancelled (execution rs).
Proof.
  destruct ev as [chunk|chunk| |code now|msg now]; simpl; try tauto.
  - destruct (timerArmed rs); simpl; tauto.
  - unfold onClose. simpl.
    destruct (cancelled (execution rs)) eqn:Hc; simpl; [tauto|].
    destruct code as [[| |]|]; simpl;
      try destruct (checkForAuthError _); simpl; tauto.
Qed.

Lemma deliver_status ms rs ev :
  cancelled (execution rs) = false ->
  status (execution rs) <> Pending -> status (execution rs) <> Cancelled ->
  status (execution (deliver ms rs ev)) <> Pending /\
  status (execution (deliver ms rs ev)) <> Cancelled.
Proof.
  intros Hc Hp Hk.
  destruct ev as [chunk|chunk| |code now|msg now]; simpl.
  - now split.
  - now split.
  - destruct (timerArmed rs); simpl; split; trivial; discriminate.
  - unfold onClose. simpl. rewrite Hc.
    destruct code as [[| |]|]; simpl;
      try destruct (checkForAuthError _); simpl; split; discriminate.
  - split; discriminate.
Qed.

(** X11.  Whatever events arrive, in whatever order, the handlers of a
    run leave the id, the command, the start time, the pid and the
    [cancelled] flag of the execution as they were at the spawn; and a
    run started on an execution that is not flagged as cancelled never
    has the status [Cancelled] (nor [Pending] again). *)
Theorem run_frame (w : World) (e : CommandExecution) (childPid : option Z)
    (ms : Z) (evs : list ChildEvent) :
  id (execution (deliverAll ms (started w e childPid) evs)) = id e /\
  cmd (execution (deliverAll ms (started w e childPid) evs)) = cmd e /\
  startTime (execution (deliverAll ms (started w e childPid) evs))
  = startTime e /\
  pid (execution (deliverAll ms (started w e childPid) evs)) = childPid /\
  cancelled (execution (deliverAll ms (started w e childPid) evs))
  = cancelled e /\
  (cancelled e = false ->
   status (execution (deliverAll ms (started w e childPid) evs)) <> Cancelled /\
   status (execution (deliverAll ms (started w e childPid) evs)) <> Pending).
Proof.
  assert (H : forall evs rs,
             (id (execution (deliverAll ms rs evs)) = id (execution rs) /\
              cmd (execution (deliverAll ms rs evs)) = cmd (execution rs) /\
              startTime (execution (deliverAll ms rs evs))
              = startTime (execution rs) /\
              pid (execution (deliverAll ms rs evs)) = pid (execution rs) /\
              cancelled (execution (deliverAll ms rs evs))
              = cancelled (execution rs)) /\
             (cancelled (execution rs) = false ->
              status (execution rs) <> Pending ->
              status (execution rs) <> Cancelled ->
              status (execution (deliverAll ms rs evs)) <> Cancelled /\
              status (execution (deliverAll ms rs evs)) <> Pending)).
  { clear evs. induction evs as [|ev evs IH]; intros rs.
    - simpl. tauto.
    - change (deliverAll ms rs (ev :: evs))
        with (deliverAll ms (deliver ms rs ev) evs).
      destruct (IH (deliver ms rs ev)) as ((I1 & I2 & I3 & I4 & I5) & I6).
      destruct (deliver_frame ms rs ev) as (F1 & F2 & F3 & F4 & F5).
      split; [repeat split; congruence|].
      intros Hc Hp Hk.
      destruct (deliver_status ms rs ev Hc Hp Hk) as [Sp Sk].
      apply I6; congruence. }
  destruct (H evs (started w e childPid)) as ((I1 & I2 & I3 & I4 & I5) & I6).
  repeat split; trivial; apply I6; trivial; discriminate.
Qed.

Lemma deliver_extends ms rs ev :
  More.extends (stdout (execution rs)) (stdout (execution (deliver ms rs ev))) /\
  More.extends (stderr (execution rs)) (stderr (execution (deliver ms rs ev))).
Proof.
  assert (Hrefl : forall l : list string, More.extends l l)
    by (intros l; exists []; now rewrite app_nil_r).
  destruct ev as [chunk|chunk| |code now|msg now]; simpl.
  - split; [now exists (chunkLines chunk) | apply Hrefl].
  - split; [apply Hrefl | now exists (chunkLines chunk)].
  - destruct (timerArmed rs); simpl; split; apply Hrefl.
  - unfold onClose. simpl. destruct (cancelled (execution rs)); simpl;
      [split; apply Hrefl|].
    destruct code as [[| |]|]; simpl;
      try destruct (checkForAuthError _); simpl; split; apply Hrefl.
  - split; apply Hrefl.
Qed.

Lemma extends_trans (l1 l2 l3 : list string) :
  More.extends l1 l2 -> More.extends l2 l3 -> More.extends l1 l3.
Proof.
  intros [m1 ->] [m2 ->]. exists (m1 ++ m2). now rewrite app_assoc.
Qed.

(** X12.  The captured output is append-only: the stdout and stderr
    lines recorded after some events are a prefix of the lines recorded
    after any further events, whatever these are. *)
Theorem output_is_append_only (ms : Z) (rs : RunState)
    (evs more : list ChildEvent) :
  More.extends (stdout (execution (deliverAll ms rs evs)))
               (stdout (execution (deliverAll ms rs (evs ++ more)))) /\
  More.extends (stderr (execution (deliverAll ms rs evs)))
               (stderr (execution (deliverAll ms rs (evs ++ more)))).
Proof.
  rewrite deliverAll_app. generalize (deliverAll ms rs evs). clear rs evs.
  induction more as [|ev more IH]; intros rs.
  - simpl. split; exists []; now rewrite app_nil_r.
  - change (deliverAll ms rs (ev :: more))
      with (deliverAll ms (deliver ms rs ev) more).
    destruct (IH (deliver ms rs ev)) as [I1 I2].
    destruct (deliver_extends ms rs ev) as [D1 D2].
    split; eapply extends_trans; eassumption.
Qed.

Lemma killCount_app (l1 l2 : list Effect) :
  More.killCount (l1 ++ l2) = (More.killCount l1 + More.killCount l2)%nat.
Proof. unfold More.killCount. now rewrite List.filter_app, length_app. Qed.

Lemma killProcess_count (p : option Z) : (More.killCount (killProcess p) <= 1)%nat.
Proof.
  unfold More.killCount.
  destruct p as [p|]; simpl; [|lia].
  destruct (p =? 0); simpl; lia.
Qed.

Lemma deliver_disarmed ms rs ev :
  timerArmed rs = false ->
  timerArmed (deliver ms rs ev) = false /\
  effects (deliver ms rs ev) = effects rs.
Proof.
  intros H. destruct ev as [chunk|chunk| |code now|msg now]; simpl.
  - now split.
  - now split.
  - rewrite H. now split.
  - unfold onClose. simpl. destruct (cancelled (execution rs)); simpl;
      [now split|].
    destruct code as [[| |]|]; simpl;
      try destruct (checkForAuthError _); simpl; now split.
  - now split.
Qed.

Lemma deliverAll_disarmed ms evs : forall rs,
  timerArmed rs = false -> effects (deliverAll ms rs evs) = effects rs.
Proof.
  induction evs as [|ev evs IH]; intros rs H; [reflexivity|].
  change (deliverAll ms rs (ev :: evs))
    with (deliverAll ms (deliver ms rs ev) evs).
  destruct (deliver_disarmed ms rs ev H) as [Ha He].
  now rewrite IH.
Qed.

Lemma deliver_kills ms rs ev :
  (timerArmed rs = true -> More.killCount (effects rs) = 0%nat) ->
  (More.killCount (effects rs) <= 1)%nat ->
  (timerArmed (deliver ms rs ev) = true ->
   More.killCount (effects (deliver ms rs ev)) = 0%nat) /\
  (More.killCount (effects (deliver ms rs ev)) <= 1)%nat.
Proof.
  intros H0 H1.
  destruct ev as [chunk|chunk| |code now|msg now]; simpl.
  - now split.
  - now split.
  - destruct (timerArmed rs) eqn:Ha; simpl; [|split; [congruence | assumption]].
    split; [discriminate|].
    rewrite killCount_app, H0 by reflexivity. apply killProcess_count.
  - unfold onClose. simpl. destruct (cancelled (execution rs)); simpl;
      [split; [discriminate | assumption]|].
    destruct code as [[| |]|]; simpl;
      try destruct (checkForAuthError _); simpl;
      (split; [discriminate | assumption]).
  - split; [discriminate | assumption].
Qed.

(** X13.  A run sends at most one signal to the child, whatever events
    arrive; and from a ['close'] or an ['error'] event on nothing more
    is sent or logged: the effects of the run are those recorded before
    that event. *)
Theorem at_most_one_signal (w : World) (e : CommandExecution)
    (childPid : option Z) (ms : Z) (evs : list ChildEvent) :
  (More.killCount (effects (deliverAll ms (started w e childPid) evs)) <= 1)%nat /\
  (forall pre ev rest,
      evs = pre ++ ev :: rest ->
      (exists code now, ev = Close code now) \/
      (exists msg now, ev = ProcessError msg now) ->
      effects (deliverAll ms (started w e childPid) evs)
      = effects (deliverAll ms (started w e childPid) pre)).
Proof.
  split.
  - assert (H : forall evs rs,
               (timerArmed rs = true -> More.killCount (effects rs) = 0%nat) ->
               (More.killCount (effects rs) <= 1)%nat ->
               (More.killCount (effects (deliverAll ms rs evs)) <= 1)%nat).
    { clear evs. induction evs as [|ev evs IH]; intros rs H0 H1; [exact H1|].
      change (deliverAll ms rs (ev :: evs))
        with (deliverAll ms (deliver ms rs ev) evs).
      destruct (deliver_kills ms rs ev H0 H1) as [K0 K1]. now apply IH. }
    apply H; [reflexivity | unfold More.killCount; simpl; lia].
  - intros pre ev rest -> Hev.
    rewrite deliverAll_app.
    change (deliverAll ms (deliverAll ms (started w e childPid) pre) (ev :: rest))
      with (deliverAll ms
              (deliver ms (deliverAll ms (started w e childPid) pre) ev) rest).
    set (rs := deliverAll ms (started w e childPid) pre).
    assert (Hd : timerArmed (deliver ms rs ev) = false /\
                 effects (deliver ms rs ev) = effects rs).
    { destruct Hev as [(code & now & ->)|(msg & now & ->)]; simpl; auto.
      unfold onClose. simpl. destruct (cancelled (execution rs)); simpl; auto.
      destruct code as [[| |]|]; simpl;
        try destruct (checkForAuthError _); simpl; auto. }
    destruct Hd as [Ha He]. now rewrite deliverAll_disarmed.
Qed.

(** X14.  Once a call of [executeCommand] has settled, events that
    arrive later change nothing for the caller: on the same machine
    with further events appended, the call returns the same record or
    throws the same error. *)
Theorem outcome_is_stable (w : World) (c : GCloudCommand)
    (more : list ChildEvent) :
  (executeCommand w c).1 <> NeverSettles ->
  (executeCommand (More.withEvents (events w ++ more) w) c).1
  = (executeCommand w c).1.
Proof.
  unfold executeCommand. simpl.
  destruct (negb (Js.startsWith (command c) "gcloud ")); [reflexivity|].
  destruct (negb (isGCloudAvailable (versionProbe w))); [reflexivity|].
  change (directoryMissing (More.withEvents (events w ++ more) w) c)
    with (directoryMissing w c).
  destruct (directoryMissing w c) as [[d|] effs]; [reflexivity|].
  simpl. unfold runCommand. simpl.
  destruct (spawnResult w) as [msg tm|childPid]; [reflexivity|].
  change (started (More.withEvents (events w ++ more) w)
            (newExecution (More.withEvents (events w ++ more) w) c) childPid)
    with (started w (newExecution w c) childPid).
  intros H. rewrite deliverAll_app. f_equal.
  apply deliverAll_keeps. intros Hp. apply H. now rewrite Hp.
Qed.

Lemma outcome_is_stable_witness :
  (executeCommand Samples.timeoutWorld Samples.projectsList).1 <> NeverSettles /\
  (executeCommand
     (More.withEvents (events Samples.timeoutWorld ++ [Close (Some 0) 1500])
        Samples.timeoutWorld)
     Samples.projectsList).1
  = (executeCommand Samples.timeoutWorld Samples.projectsList).1.
Proof.
  assert (H : (executeCommand Samples.timeoutWorld Samples.projectsList).1
              <> NeverSettles) by discriminate.
  split; [exact H|].
  exact (outcome_is_stable Samples.timeoutWorld Samples.projectsList
           [Close (Some 0) 1500] H).
Defined.

(** ** Further properties: the captured lines *)

Lemma hasLineFeed_of_list (l : list ascii) :
  More.hasLineFeed (string_of_list_ascii l)
  = existsb (fun c => Ascii.eqb c "010") l.
Proof. induction l as [|c l IH]; simpl; [reflexivity | now rewrite IH]. Qed.

Lemma piece_without_line_feed (cur : list ascii) :
  existsb (fun c => Ascii.eqb c "010") cur = false ->
  More.hasLineFeed (string_of_list_ascii (rev cur)) = false.
Proof.
  intros H. rewrite hasLineFeed_of_list.
  apply not_true_is_false. intros Hex.
  apply existsb_exists in Hex as (c & Hin & Hc).
  apply in_rev in Hin.
  assert (existsb (fun c => Ascii.eqb c "010") cur = true)
    by (apply existsb_exists; now exists c).
  congruence.
Qed.

Lemma splitLinesFrom_no_line_feed (n : nat) : forall s cur line,
  (String.length s <= n)%nat ->
  existsb (fun c => Ascii.eqb c "010") cur = false ->
  In line (Js.splitLinesFrom cur s) -> More.hasLineFeed line = false.
Proof.
  induction n as [|n IH]; intros s cur line Hn Hcur Hin.
  - destruct s; simpl in Hn; [|lia]. simpl in Hin.
    destruct Hin as [<-|[]]. now apply piece_without_line_feed.
  - destruct s as [|c s']; simpl in Hin.
    + destruct Hin as [<-|[]]. now apply piece_without_line_feed.
    + simpl in Hn.
      destruct (Ascii.eqb c "010") eqn:Hlf.
      * destruct Hin as [<-|Hin]; [now apply piece_without_line_feed|].
        apply (IH s' [] line); trivial. lia.
      * assert (Hcur' : existsb (fun c => Ascii.eqb c "010") (c :: cur) = false)
          by (simpl; now rewrite Hlf, Hcur).
        destruct (Ascii.eqb c "013").
        -- destruct s' as [|c' s''].
           ++ simpl in Hin. destruct Hin as [<-|[]].
              exact (piece_without_line_feed (c :: cur) Hcur').
           ++ destruct (Ascii.eqb c' "010") eqn:Hlf'.
              ** destruct Hin as [<-|Hin]; [now apply piece_without_line_feed|].
                 apply (IH s'' [] line); trivial. simpl in Hn. lia.
              ** apply (IH (String c' s'') (c :: cur) line); trivial. lia.
        -- apply (IH s' (c :: cur) line); trivial. lia.
Qed.

Lemma chunkLines_good (chunk line : string) :
  In line (chunkLines chunk) -> line <> "" /\ More.hasLineFeed line = false.
Proof.
  unfold chunkLines. intros H. apply filter_In in H as [Hin Ht]. split.
  - intros ->. discriminate.
  - apply (splitLinesFrom_no_line_feed (String.length chunk) chunk [] line);
      trivial.
Qed.

(** X15.  At every moment of a run, each line recorded in stdout or
    stderr is a non-empty string without a line feed (empty lines of
    the output are dropped), and the two line counters equal the number
    of lines recorded on their stream. *)
Theorem recorded_lines (w : World) (c : GCloudCommand) (childPid : option Z)
    (ms : Z) (evs : list ChildEvent) :
  (forall line,
      In line (stdout (execution
                 (deliverAll ms (started w (newExecution w c) childPid) evs))) \/
      In line (stderr (execution
                 (deliverAll ms (started w (newExecution w c) childPid) evs))) ->
      line <> "" /\ More.hasLineFeed line = false) /\
  stdoutLineNumber (deliverAll ms (started w (newExecution w c) childPid) evs)
  = length (stdout (execution
              (deliverAll ms (started w (newExecution w c) childPid) evs))) /\
  stderrLineNumber (deliverAll ms (started w (newExecution w c) childPid) evs)
  = length (stderr (execution
              (deliverAll ms (started w (newExecution w c) childPid) evs))).
Proof.
  set (good := fun rs : RunState =>
         (forall line,
             In line (stdout (execution rs)) \/ In line (stderr (execution rs)) ->
             line <> "" /\ More.hasLineFeed line = false) /\
         stdoutLineNumber rs = length (stdout (execution rs)) /\
         stderrLineNumber rs = length (stderr (execution rs))).
  assert (Hstep : forall rs ev, good rs -> good (deliver ms rs ev)).
  { intros rs ev (Hl & Ho & He).
    destruct ev as [chunk|chunk| |code now|msg now]; unfold good; simpl.
    - split; [|split; [rewrite length_app; congruence | assumption]].
      intros line [Hin|Hin]; [|now apply Hl; right].
      apply in_app_iff in Hin as [Hin|Hin]; [now apply Hl; left|].
      now apply (chunkLines_good chunk).
    - split; [|split; [assumption | rewrite length_app; congruence]].
      intros line [Hin|Hin]; [now apply Hl; left|].
      apply in_app_iff in Hin as [Hin|Hin]; [now apply Hl; right|].
      now apply (chunkLines_good chunk).
    - destruct (timerArmed rs); simpl; auto.
    - unfold onClose. simpl. destruct (cancelled (execution rs)); simpl; auto.
      destruct code as [[| |]|]; simpl;
        try destruct (checkForAuthError _); simpl; auto.
    - auto. }
  assert (Hall : forall evs rs, good rs -> good (deliverAll ms rs evs)).
  { clear evs. induction evs as [|ev evs IH]; intros rs Hg; [exact Hg|].
    change (deliverAll ms rs (ev :: evs))
      with (deliverAll ms (deliver ms rs ev) evs).
    apply IH. now apply Hstep. }
  apply (Hall evs). unfold good. simpl. repeat split; try tauto;
    destruct H as [[]|[]].
Qed.

(** ** Further properties: markers, timeout, display *)

Lemma append_cons (a : ascii) (p b : string) :
  String a p +:+ b = String a (p +:+ b).
Proof. reflexivity. Qed.

Lemma append_empty (b : string) : "" +:+ b = b.
Proof. reflexivity. Qed.

Lemma prefix_spec (p : string) : forall s,
  String.prefix p s = true <-> exists b, s = p +:+ b.
Proof.
  induction p as [|a p IH]; intros s.
  - split; [intros _; now exists s | intros _; now destruct s].
  - destruct s as [|c s]; simpl.
    + split; [discriminate | intros [b Hb]; rewrite append_cons in Hb;
                             discriminate].
    + destruct (ascii_dec a c) as [->|Hne].
      * rewrite IH. split; intros [b Hb]; exists b.
        -- rewrite append_cons. now rewrite Hb.
        -- rewrite append_cons in Hb. now injection Hb.
      * split; [discriminate|].
        intros [b Hb]. rewrite append_cons in Hb. congruence.
Qed.

Lemma includes_spec (s p : string) :
  Js.includes s p = true <-> exists a b, s = a +:+ p +:+ b.
Proof.
  induction s as [|c s IH].
  - change (Js.includes "" p) with (String.prefix p "" || false).
    rewrite orb_false_r, prefix_spec. split.
    + intros [b Hb]. now exists "", b.
    + intros (a & b & H). destruct a as [|c' a].
      * rewrite append_empty in H. now exists b.
      * rewrite append_cons in H. discriminate.
  - change (Js.includes (String c s) p)
      with (String.prefix p (String c s) || Js.includes s p).
    rewrite orb_true_iff, prefix_spec, IH. split.
    + intros [[b Hb]|(a & b & Hab)].
      * now exists "", b.
      * exists (String c a), b. rewrite append_cons. now rewrite Hab.
    + intros (a & b & H). destruct a as [|c' a].
      * rewrite append_empty in H. left. now exists b.
      * rewrite append_cons in H. right. injection H as _ H. now exists a, b.
Qed.

(** X16.  [checkForAuthError] answers [true] exactly when some stderr
    line, once put in lower case, contains one of the seven markers as a
    substring.  Only the lower-case form of the lines matters, so the
    case of the letters in stderr never changes the answer; and no
    stderr at all is never an authentication error. *)
Theorem auth_marker_detection (lines : list string) :
  (checkForAuthError lines = true <->
   exists line pattern before after,
     In line lines /\ In pattern authErrorPatterns /\
     Js.toLowerCase line = before +:+ pattern +:+ after) /\
  (forall lines',
      map Js.toLowerCase lines' = map Js.toLowerCase lines ->
      checkForAuthError lines' = checkForAuthError lines) /\
  checkForAuthError [] = false.
Proof.
  split; [|split; [|reflexivity]].
  - unfold checkForAuthError. rewrite existsb_exists. split.
    + intros (line & Hl & H). apply existsb_exists in H as (pattern & Hp & H).
      apply includes_spec in H as (a & b & H). now exists line, pattern, a, b.
    + intros (line & pattern & a & b & Hl & Hp & H). exists line.
      split; trivial. apply existsb_exists. exists pattern. split; trivial.
      apply includes_spec. now exists a, b.
  - assert (Hmap : forall l,
               checkForAuthError l
               = existsb (fun low => existsb (fun pattern => Js.includes low pattern)
                                             authErrorPatterns)
                         (map Js.toLowerCase l)).
    { intros l. unfold checkForAuthError.
      induction l as [|a l IH]; [reflexivity|].
      cbn [map existsb]. now rewrite IH. }
    intros lines' H. now rewrite !Hmap, H.
Qed.

(** X17.  The timeout of a run is never 0: a timeout of the command
    other than 0 is used as it is; when it is absent or 0 the configured
    default is used if it is set and not 0, and 300000 ms otherwise. *)
Theorem timeout_selection (cfg : GCloudConfig) (c : GCloudCommand) :
  effectiveTimeout cfg c <> 0 /\
  (forall t, timeout c = Some t -> t <> 0 -> effectiveTimeout cfg c = t) /\
  (timeout c = None \/ timeout c = Some 0 ->
   (forall d, defaultTimeout cfg = Some d -> d <> 0 ->
              effectiveTimeout cfg c = d) /\
   (defaultTimeout cfg = None \/ defaultTimeout cfg = Some 0 ->
    effectiveTimeout cfg c = 300000)).
Proof.
  unfold effectiveTimeout, orNumber, DEFAULT_TIMEOUT.
  split; [|split].
  - destruct (timeout c) as [t|].
    + destruct (t =? 0) eqn:Ht; [|now apply Z.eqb_neq].
      destruct (defaultTimeout cfg) as [d|]; [|discriminate].
      destruct (d =? 0) eqn:Hd; [discriminate | now apply Z.eqb_neq].
    + destruct (defaultTimeout cfg) as [d|]; [|discriminate].
      destruct (d =? 0) eqn:Hd; [discriminate | now apply Z.eqb_neq].
  - intros t -> Ht. apply Z.eqb_neq in Ht. now rewrite Ht.
  - intros Hc.
    assert (Hfall : match timeout c with
                    | Some x => if x =? 0 then
                                  match defaultTimeout cfg with
                                  | Some x0 => if x0 =? 0 then 300000 else x0
                                  | None => 300000
                                  end
                                else x
                    | None => match defaultTimeout cfg with
                              | Some x0 => if x0 =? 0 then 300000 else x0
                              | None => 300000
                              end
                    end
                    = match defaultTimeout cfg with
                      | Some x0 => if x0 =? 0 then 300000 else x0
                      | None => 300000
                      end)
      by (destruct Hc as [-> | ->]; reflexivity).
    rewrite Hfall. split.
    + intros d -> Hd. apply Z.eqb_neq in Hd. now rewrite Hd.
    + intros [-> | ->]; reflexivity.
Qed.

(** X18.  [formatCommandForDisplay] yields a string that starts with
    [gcloud ], and is idempotent; what it displays for the command typed
    by the caller is the command string that [prepareCommand] builds for
    that input. *)
Theorem display_matches_prepared_command (input : GCloudInput.t) :
  Js.startsWith (Formatters.formatCommandForDisplay (GCloudInput.command input))
                "gcloud " = true /\
  Formatters.formatCommandForDisplay
    (Formatters.formatCommandForDisplay (GCloudInput.command input))
  = Formatters.formatCommandForDisplay (GCloudInput.command input) /\
  Formatters.formatCommandForDisplay (GCloudInput.command input)
  = command (GCloudOperations.prepareCommand input).
Proof.
  assert (H : Js.startsWith
                (Formatters.formatCommandForDisplay (GCloudInput.command input))
                "gcloud " = true)
    by apply fullCommand_prefix.
  split; [exact H|]. split; [|reflexivity].
  unfold Formatters.formatCommandForDisplay at 1. now rewrite H.
Qed.

(** ** Further properties: words of a command *)

Lemma append_nil_r (s : string) : s +:+ "" = s.
Proof.
  induction s as [|c s IH]; [reflexivity|].
  rewrite append_cons. now rewrite IH.
Qed.

Lemma splitSpacesFrom_word (word : string) : forall cur inSep rest,
  More.hasSpace word = false ->
  Js.splitSpacesFrom inSep cur (word +:+ rest)
  = Js.splitSpacesFrom (match word with "" => inSep | _ => false end)
      (rev (list_ascii_of_string word) ++ cur) rest.
Proof.
  induction word as [|c word IH]; intros cur inSep rest H; [reflexivity|].
  simpl in H. apply orb_false_iff in H as [Hc Hw].
  rewrite append_cons. cbn [Js.splitSpacesFrom]. rewrite Hc.
  rewrite (IH (c :: cur) false rest Hw).
  cbn [list_ascii_of_string rev]. rewrite <- app_assoc. simpl.
  now destruct word.
Qed.

Lemma splitSpacesFrom_words (words : list string) : forall inSep,
  words <> [] -> forallb More.isWord words = true ->
  Js.splitSpacesFrom inSep [] (Js.join " " words) = words.
Proof.
  induction words as [|word rest IH]; intros inSep Hne Hall; [congruence|].
  simpl in Hall. apply andb_true_iff in Hall as [Hw Hrest].
  unfold More.isWord in Hw. apply andb_true_iff in Hw as [Ht Hs].
  apply negb_true_iff in Hs.
  assert (Hpiece : string_of_list_ascii
                     (rev (rev (list_ascii_of_string word) ++ [])) = word)
    by (rewrite app_nil_r, rev_involutive;
        apply string_of_list_ascii_of_string).
  destruct rest as [|word2 rest].
  - cbn [Js.join]. rewrite <- (append_nil_r word) at 1.
    rewrite (splitSpacesFrom_word word [] inSep "" Hs).
    cbn [Js.splitSpacesFrom]. now rewrite Hpiece.
  - change (Js.join " " (word :: word2 :: rest))
      with (word +:+ " " +:+ Js.join " " (word2 :: rest)).
    rewrite (splitSpacesFrom_word word [] inSep _ Hs).
    destruct word as [|c word]; [discriminate|].
    change (" " +:+ Js.join " " (word2 :: rest))
      with (String " " (Js.join " " (word2 :: rest))).
    cbn [Js.splitSpacesFrom].
    change (Js.is_space " ") with true. cbv iota.
    rewrite Hpiece. f_equal. apply IH; [discriminate | assumption].
Qed.

Lemma dropSpaces_words (words : list string) :
  words <> [] -> forallb More.isWord words = true ->
  Js.dropSpaces (Js.join " " words) = Js.join " " words.
Proof.
  intros Hne Hall. destruct words as [|word rest]; [congruence|].
  simpl in Hall. apply andb_true_iff in Hall as [Hw _].
  unfold More.isWord in Hw. apply andb_true_iff in Hw as [Ht Hs].
  apply negb_true_iff in Hs.
  destruct word as [|c word]; [discriminate|].
  simpl in Hs. apply orb_false_iff in Hs as [Hc _].
  assert (Hj : exists tail, Js.join " " (String c word :: rest) = String c tail).
  { destruct rest; [now exists word|].
    eexists. change (Js.join " " (String c word :: s :: rest))
      with (String c word +:+ " " +:+ Js.join " " (s :: rest)).
    now rewrite append_cons. }
  destruct Hj as [tail ->]. simpl. now rewrite Hc.
Qed.

(** X19.  Splitting undoes joining: for a command string made of
    [gcloud] and words (non-empty, without white space) separated by
    single spaces, the parsed argument list is exactly the list of
    words; and when no format flag is requested, the command string
    that the shell receives is the command string as given. *)
Theorem words_round_trip (w : World) (c : GCloudCommand)
    (words : list string) :
  words <> [] ->
  forallb More.isWord words = true ->
  command c = "gcloud " +:+ Js.join " " words ->
  Js.splitSpaces (Js.join " " words) = words /\
  parseArgs c = words /\
  (jsonRequested (config w) c = false ->
   spawnedArgv (commandRequest w c) = ["/bin/sh"; "-c"; command c]).
Proof.
  intros Hne Hall Hc.
  assert (Hsplit : Js.splitSpaces (Js.join " " words) = words)
    by now apply splitSpacesFrom_words.
  assert (Hparse : parseArgs c = words).
  { unfold parseArgs. rewrite Hc.
    change (Js.stripGcloud ("gcloud " +:+ Js.join " " words))
      with (Js.dropSpaces (Js.join " " words)).
    now rewrite dropSpaces_words. }
  split; [exact Hsplit|]. split; [exact Hparse|].
  intros Hj. unfold spawnedArgv, commandRequest, spawnArgs. simpl.
  rewrite Hj, Hparse, Hc. simpl.
  destruct words as [|word rest]; [congruence|]. reflexivity.
Qed.

Lemma words_round_trip_witness :
  forallb More.isWord ["projects"; "list"] = true /\
  parseArgs Samples.projectsList = ["projects"; "list"].
Proof.
  split; [reflexivity|].
  refine (proj1 (proj2 (words_round_trip (Samples.world [])
                          Samples.projectsList ["projects"; "list"] _ _ _)));
    [discriminate | reflexivity | reflexivity].
Defined.

(** ** Further properties: the tool *)

Lemma startsWith_includes (s p : string) :
  Js.startsWith s p = true -> Js.includes s p = true.
Proof.
  unfold Js.startsWith. intros H.
  destruct s; unfold Js.includes; now rewrite H.
Qed.

(** X20.  [GCloudTool.call] never throws and, when it finishes, has
    yielded exactly one result.  Without the SDK it runs nothing but
    the version check.  When the authentication check fails and the
    typed command does not contain [auth ], the result of that check is
    what is yielded and the command is not run: the effects are those
    of the version check and of the probe.  Hence a command without
    [auth ] in its text yields a successful result only after a
    successful authentication check. *)
Theorem tool_call_gate (parse : string -> option Json)
    (render : GCloudToolOutput.t -> string)
    (tw : GCloudTool.ToolWorld) (input : GCloudInput.t) :
  (forall e, (GCloudTool.call parse render tw input).1 <> Throws e) /\
  (forall rs,
      (GCloudTool.call parse render tw input).1 = Returns rs ->
      exists r, rs = [GCloudTool.result render r]) /\
  (isGCloudAvailable (GCloudTool.toolProbe tw) = false ->
   GCloudTool.call parse render tw input
   = (Returns [GCloudTool.result render
                 (GCloudOperations.sdkNotFoundResult (GCloudInput.command input))],
      [EffSpawn versionRequest])) /\
  (forall authStatus effs,
      isGCloudAvailable (GCloudTool.toolProbe tw) = true ->
      GCloudOperations.checkAuthenticationStatus parse
        (GCloudTool.authWorld1 tw) (GCloudTool.authWorld2 tw)
        (GCloudTool.authNow tw) = (Returns authStatus, effs) ->
      GCloudToolOutput.success authStatus = false ->
      Js.includes (GCloudInput.command input) "auth " = false ->
      GCloudTool.call parse render tw input
      = (Returns [GCloudTool.result render authStatus],
         EffSpawn versionRequest :: effs)) /\
  (forall rs r,
      (GCloudTool.call parse render tw input).1 = Returns rs ->
      In r rs ->
      GCloudToolOutput.success (GCloudTool.data r) = true ->
      Js.includes (GCloudInput.command input) "auth " = false ->
      exists authStatus effs,
        GCloudOperations.checkAuthenticationStatus parse
          (GCloudTool.authWorld1 tw) (GCloudTool.authWorld2 tw)
          (GCloudTool.authNow tw) = (Returns authStatus, effs) /\
        GCloudToolOutput.success authStatus = true).
Proof.
  unfold GCloudTool.call.
  destruct (isGCloudAvailable (GCloudTool.toolProbe tw)) eqn:Hav; simpl.
  - destruct (GCloudOperations.checkAuthenticationStatus parse
                (GCloudTool.authWorld1 tw) (GCloudTool.authWorld2 tw)
                (GCloudTool.authNow tw)) as [[authStatus|e|] effs] eqn:Hcheck.
    + destruct (GCloudTool.stoppedForAuthentication authStatus input) eqn:Hstop.
      * unfold GCloudTool.stoppedForAuthentication in Hstop.
        apply andb_true_iff in Hstop as [Hstop _].
        apply andb_true_iff in Hstop as [Hs _].
        apply negb_true_iff in Hs.
        simpl. repeat split; try discriminate.
        -- intros rs [= <-]. now eexists.
        -- intros a effs' _ [= <- <-] _ _. reflexivity.
        -- intros rs r [= <-] [<-|[]]. simpl. congruence.
      * assert (Hgate : GCloudToolOutput.success authStatus = false ->
                        Js.includes (GCloudInput.command input) "auth " = false ->
                        False).
        { intros Hs Hi. unfold GCloudTool.stoppedForAuthentication in Hstop.
          rewrite Hs, Hi in Hstop. simpl in Hstop.
          rewrite andb_true_r in Hstop. apply negb_false_iff in Hstop.
          apply startsWith_includes in Hstop. congruence. }
        destruct (GCloudOperations.executeCommand parse
                    (GCloudTool.facadeProbe tw) (GCloudTool.commandWorld tw)
                    (GCloudTool.startMs tw) (GCloudTool.endMs tw) input)
          as [[r|e|] effs2]; simpl;
          (split; [discriminate|]);
          (split; [try discriminate; intros rs [= <-]; now eexists|]);
          (split; [discriminate|]);
          (split; [intros a effs' _ [= <- <-] Hs Hi;
                   destruct (Hgate Hs Hi)|]);
          try (intros rs0 r0; discriminate).
        -- intros rs r0 [= <-] [<-|[]] Hok Hi.
           exists authStatus, effs. split; trivial.
           destruct (GCloudToolOutput.success authStatus) eqn:Hs; trivial.
           destruct (Hgate eq_refl Hi).
        -- intros rs r0 [= <-] [<-|[]]. discriminate.
    + simpl. repeat split; try discriminate.
      * intros rs [= <-]. now eexists.
      * intros rs r [= <-] [<-|[]]. discriminate.
    + simpl. repeat split; discriminate.
  - repeat split; try discriminate.
    + intros rs [= <-]. now eexists.
    + intros rs r [= <-] [<-|[]]. discriminate.
Qed.

(** ** Further properties: processes spawned and signalled *)

Lemma spawnCount_app (l1 l2 : list Effect) :
  More.spawnCount (l1 ++ l2) = (More.spawnCount l1 + More.spawnCount l2)%nat.
Proof. unfold More.spawnCount. now rewrite List.filter_app, length_app. Qed.

Lemma deliver_spawnCount ms rs ev :
  More.spawnCount (effects (deliver ms rs ev)) = More.spawnCount (effects rs).
Proof.
  destruct ev as [chunk|chunk| |code now|msg now]; simpl; trivial.
  - destruct (timerArmed rs); simpl; trivial.
    rewrite spawnCount_app. unfold killProcess.
    destruct (pid (execution rs)) as [p|]; [destruct (p =? 0)|];
      unfold More.spawnCount; simpl; lia.
  - unfold onClose. simpl. destruct (cancelled (execution rs)); simpl; trivial.
    destruct code as [[| |]|]; simpl;
      try destruct (checkForAuthError _); reflexivity.
Qed.

Lemma deliverAll_spawnCount ms evs : forall rs,
  More.spawnCount (effects (deliverAll ms rs evs)) = More.spawnCount (effects rs).
Proof.
  induction evs as [|ev evs IH]; intros rs; [reflexivity|].
  change (deliverAll ms rs (ev :: evs))
    with (deliverAll ms (deliver ms rs ev) evs).
  now rewrite IH, deliver_spawnCount.
Qed.

Lemma runCommand_spawnCount w e :
  More.spawnCount (effects (runCommand w e)) = 1%nat /\
  In (EffSpawn (commandRequest w (cmd e))) (effects (runCommand w e)).
Proof.
  unfold runCommand. destruct (spawnResult w) as [msg now|childPid].
  - split; [reflexivity | now left].
  - rewrite deliverAll_spawnCount. split; [reflexivity|].
    assert (H : forall evs rs r,
               In (EffSpawn r) (effects rs) ->
               In (EffSpawn r) (effects (deliverAll (effectiveTimeout (config w) (cmd e)) rs evs))).
    { induction evs as [|ev evs IH]; intros rs r Hin; [exact Hin|].
      change (deliverAll (effectiveTimeout (config w) (cmd e)) rs (ev :: evs))
        with (deliverAll (effectiveTimeout (config w) (cmd e))
                (deliver (effectiveTimeout (config w) (cmd e)) rs ev) evs).
      apply IH.
      destruct ev as [chunk|chunk| |code t|msg t]; simpl; trivial.
      - destruct (timerArmed rs); simpl; trivial.
        apply in_app_iff. now left.
      - unfold onClose. simpl. destruct (cancelled (execution rs)); simpl; trivial.
        destruct code as [[| |]|]; simpl;
          try destruct (checkForAuthError _); exact Hin. }
    apply H. now left.
Qed.

(** X21.  A call of [executeCommand] whose pre-conditions hold spawns
    exactly two processes, the version check and then the command, the
    command once.  A call whose pre-conditions fail spawns the version
    check at most and never the command; an empty working directory
    string counts as no working directory. *)
Theorem command_spawned_once (w : World) (c : GCloudCommand) :
  (preconditionsHold w c = true ->
   More.spawnCount (executeCommand w c).2 = 2%nat /\
   In (EffSpawn (commandRequest w c)) (executeCommand w c).2) /\
  (preconditionsHold w c = false ->
   (More.spawnCount (executeCommand w c).2 <= 1)%nat /\
   ~ In (EffSpawn (commandRequest w c)) (executeCommand w c).2) /\
  (workingDirectory c = Some "" ->
   forall path, ~ In (EffExistsSync path) (executeCommand w c).2).
Proof.
  destruct (runCommand_spawnCount w (newExecution w c)) as [Hn Hin].
  assert (Hnone : forall path,
             ~ In (EffExistsSync path) (effects (runCommand w (newExecution w c)))).
  { intros path. unfold runCommand.
    destruct (spawnResult w) as [msg now|childPid]; simpl.
    - intros [[=]|[]].
    - assert (H : forall evs rs,
                 ~ In (EffExistsSync path) (effects rs) ->
                 ~ In (EffExistsSync path)
                     (effects (deliverAll (effectiveTimeout (config w) c) rs evs))).
      { induction evs as [|ev evs IH]; intros rs Hrs; [exact Hrs|].
        change (deliverAll (effectiveTimeout (config w) c) rs (ev :: evs))
          with (deliverAll (effectiveTimeout (config w) c)
                  (deliver (effectiveTimeout (config w) c) rs ev) evs).
        apply IH.
        destruct ev as [chunk|chunk| |code t|msg t]; simpl; trivial.
        - destruct (timerArmed rs); simpl; trivial.
          rewrite in_app_iff. intros [H|H]; [now apply Hrs|].
          unfold killProcess in H.
          destruct (pid (execution rs)) as [p|]; [destruct (p =? 0)|];
            simpl in H; try tauto. destruct H as [[=]|[]].
        - unfold onClose. simpl.
          destruct (cancelled (execution rs)); simpl; trivial.
          destruct code as [[| |]|]; simpl;
            try destruct (checkForAuthError _); exact Hrs. }
      apply H. simpl. intros [[=]|[]]. }
  assert (Hdiff : EffSpawn versionRequest <> EffSpawn (commandRequest w c))
    by (intros [=]).
  unfold More.spawnCount in *.
  unfold preconditionsHold, executeCommand, directoryMissing.
  destruct (Js.startsWith (command c) "gcloud ");
    destruct (isGCloudAvailable (versionProbe w));
    destruct (workingDirectory c) as [d|];
    try (destruct (Js.truthy d) eqn:Ht);
    try (destruct (existsSync w d));
    simpl; repeat split; try discriminate; try lia; try (now rewrite Hn);
    try tauto;
    try (intros [= ->]; discriminate);
    try (intros H; repeat destruct H as [H|H]; try discriminate H;
         try contradiction; fail).
  - intros [Hx|[Hx|[]]]; [now apply Hdiff | discriminate Hx].
  - intros _ path [Hx|Hx]; [discriminate Hx | now apply (Hnone path)].
  - intros _ path [Hx|Hx]; [discriminate Hx | now apply (Hnone path)].
  - intros _ path [Hx|[]]. discriminate Hx.
  - intros _ path [Hx|[]]. discriminate Hx.
Qed.

Lemma kill_origin ms (p : Z) : forall evs rs,
  In (EffKill p) (effects (deliverAll ms rs evs)) ->
  In (EffKill p) (effects rs) \/
  (pid (execution rs) = Some p /\ p <> 0 /\ In TimerFires evs).
Proof.
  induction evs as [|ev evs IH]; intros rs Hin; [now left|].
  change (deliverAll ms rs (ev :: evs))
    with (deliverAll ms (deliver ms rs ev) evs) in Hin.
  destruct (IH _ Hin) as [H|(Hp & Hne & Ht)].
  - destruct ev as [chunk|chunk| |code t|msg t]; simpl in H; auto.
    + destruct (timerArmed rs); simpl in H; auto.
      apply in_app_iff in H as [H|H]; [now left|]. right.
      unfold killProcess in H.
      destruct (pid (execution rs)) as [q|]; [|destruct H].
      destruct (q =? 0) eqn:Hq; [destruct H|].
      destruct H as [[= ->]|[]]. apply Z.eqb_neq in Hq.
      repeat split; trivial. now left.
    + left. unfold onClose in H. simpl in H.
      destruct (cancelled (execution rs)); simpl in H; trivial.
      destruct code as [[| |]|]; simpl in H;
        try destruct (checkForAuthError _); exact H.
  - right. destruct (deliver_frame ms rs ev) as (_ & _ & _ & Hpid & _).
    rewrite Hpid in Hp. repeat split; trivial. now right.
Qed.

(** X22.  The only process that a run ever signals is its own child:
    every signal in the effects of a run goes to the pid returned by
    [spawn], which is then not 0, and is due to the timer having fired;
    a child without pid is never signalled. *)
Theorem only_the_child_is_signalled (w : World) (e : CommandExecution)
    (childPid : option Z) (ms : Z) (evs : list ChildEvent) (p : Z) :
  In (EffKill p) (effects (deliverAll ms (started w e childPid) evs)) ->
  childPid = Some p /\ p <> 0 /\ In TimerFires evs.
Proof.
  intros H. destruct (kill_origin ms p evs _ H) as [Hin|Hk].
  - simpl in Hin. destruct Hin as [[=]|[]].
  - exact Hk.
Qed.

Lemma only_the_child_is_signalled_witness :
  In (EffKill 4242)
     (effects (deliverAll 10
                 (started Samples.slowWorld
                    (newExecution Samples.slowWorld Samples.projectsList)
                    (Some 4242))
                 (events Samples.slowWorld))) /\
  Some 4242 = Some 4242 /\ 4242 <> 0.
Proof.
  assert (H : In (EffKill 4242)
                (effects (deliverAll 10
                   (started Samples.slowWorld
                      (newExecution Samples.slowWorld Samples.projectsList)
                      (Some 4242))
                   (events Samples.slowWorld))))
    by (simpl; right; now left).
  split; [exact H|].
  destruct (only_the_child_is_signalled Samples.slowWorld
              (newExecution Samples.slowWorld Samples.projectsList)
              (Some 4242) 10 (events Samples.slowWorld) 4242 H)
    as (H1 & H2 & _).
  split; [exact H1 | exact H2].
Defined.

(** ** Further properties: the snapshot of the probe *)

Lemma findActive_member (items : list Json) (acc : Json) :
  AuthProbe.findActive items = Some (Some acc) -> In acc items.
Proof.
  induction items as [|item items IH]; simpl; [discriminate|].
  destruct (AuthProbe.getProperty "status" item) as [st|]; simpl;
    [|discriminate].
  destruct (AuthProbe.isActive st).
  - intros [= ->]. now left.
  - intros H. right. now apply IH.
Qed.

Lemma accountsOf_member (items : list Json) (accounts : list (option Json))
    (acc : Json) :
  AuthProbe.accountsOf items = Some accounts -> In acc items ->
  exists v, AuthProbe.getProperty "account" acc = Some v /\ In v accounts.
Proof.
  unfold AuthProbe.accountsOf. rewrite mapM_Some.
  induction 1 as [|item v items accounts Hv _ IH]; intros Hin; [destruct Hin|].
  destruct Hin as [->|Hin].
  - exists v. split; [exact Hv | now left].
  - destruct (IH Hin) as (v' & Hv' & Hin'). exists v'. split; trivial.
    now right.
Qed.

Lemma defaultProject_never_unset parse (y : CommandExecution) :
  AuthProbe.defaultProjectOf parse y <> Some (JString "(unset)").
Proof.
  unfold AuthProbe.defaultProjectOf.
  destruct (bool_decide (status y = Completed)); [|discriminate].
  destruct (parse (Js.join "" (stdout y))) as [v|]; [|discriminate].
  destruct v as [ |b|n|s|items|fields]; try discriminate.
  destruct (String.eqb s "(unset)") eqn:Hs; [discriminate|].
  intros [= ->]. discriminate.
Qed.

(** X23.  Every snapshot that the probe returns is consistent:
    [isAuthenticated] holds exactly when the list of available accounts
    is not empty, an active account is always one of the available
    accounts, there is no active account when not authenticated, the
    sentinel [(unset)] is never reported as default project, and
    [lastChecked] is the clock reading of the call. *)
Theorem probe_snapshot_consistent (parse : string -> option Json)
    (w1 w2 : World) (now : Z) (s : AuthenticationStatus) :
  (AuthProbe.getAuthenticationStatus parse w1 w2 now).1 = Returns s ->
  isAuthenticated s = (0 <? length (availableAccounts s))%nat /\
  (forall a, activeAccount s = Some a -> In (Some a) (availableAccounts s)) /\
  (isAuthenticated s = false -> activeAccount s = None) /\
  defaultProject s <> Some (JString "(unset)") /\
  lastChecked s = now.
Proof.
  assert (Hno : isAuthenticated (AuthProbe.notAuthenticated now)
                = (0 <? length (availableAccounts (AuthProbe.notAuthenticated now)))%nat /\
                (forall a, activeAccount (AuthProbe.notAuthenticated now) = Some a ->
                           In (Some a) (availableAccounts (AuthProbe.notAuthenticated now))) /\
                (isAuthenticated (AuthProbe.notAuthenticated now) = false ->
                 activeAccount (AuthProbe.notAuthenticated now) = None) /\
                defaultProject (AuthProbe.notAuthenticated now)
                <> Some (JString "(unset)") /\
                lastChecked (AuthProbe.notAuthenticated now) = now)
    by (repeat split; discriminate).
  unfold AuthProbe.getAuthenticationStatus.
  destruct (executeCommand w1 AuthProbe.authListCommand) as [[x|e1|] effs];
    simpl; [| intros [= <-]; exact Hno | discriminate].
  destruct (bool_decide (status x = Completed)); simpl;
    [| intros [= <-]; exact Hno].
  destruct (parse (Js.join "" (stdout x))) as [v|];
    [| intros [= <-]; exact Hno].
  destruct v as [ |b|n|t|items|fields]; try (intros [= <-]; exact Hno).
  destruct (AuthProbe.activeAccountOf items) as [active|] eqn:Hact;
    [| intros [= <-]; exact Hno].
  destruct (executeCommand w2 AuthProbe.projectCommand) as [[y|e2|] effs2];
    simpl; [| intros [= <-]; exact Hno | discriminate].
  destruct (AuthProbe.accountsOf items) as [accounts|] eqn:Hacc;
    [| intros [= <-]; exact Hno].
  intros [= <-]. simpl.
  pose proof (length_mapM _ _ _ Hacc) as Hlen.
  split; [now rewrite Hlen|].
  split; [|split; [|split; [apply defaultProject_never_unset | reflexivity]]].
  - intros a ->. unfold AuthProbe.activeAccountOf in Hact.
    destruct (AuthProbe.findActive items) as [[acc|]|] eqn:Hfind;
      simpl in Hact; try discriminate.
    apply findActive_member in Hfind.
    destruct (accountsOf_member items accounts acc Hacc Hfind) as (v & Hv & Hin).
    congruence.
  - destruct items as [|item items]; [|discriminate].
    intros _. cbv in Hact. congruence.
Qed.

Lemma probe_snapshot_consistent_witness :
  (AuthProbe.getAuthenticationStatus Samples.parseSample Samples.accountsWorld
     Samples.projectFailsWorld 2000).1
  = Returns {| isAuthenticated := true;
               activeAccount := Some (JString "dev@example.com");
               availableAccounts := [Some (JString "dev@example.com")];
               defaultProject := None;
               lastChecked := 2000 |} /\
  In (Some (JString "dev@example.com")) [Some (JString "dev@example.com")].
Proof.
  split; [reflexivity|].
  exact (proj1 (proj2
           (probe_snapshot_consistent Samples.parseSample Samples.accountsWorld
              Samples.projectFailsWorld 2000
              {| isAuthenticated := true;
                 activeAccount := Some (JString "dev@example.com");
                 availableAccounts := [Some (JString "dev@example.com")];
                 defaultProject := None;
                 lastChecked := 2000 |}
              eq_refl))
           (JString "dev@example.com") eq_refl).
Defined.

(** ** Further properties: structured output *)


